(** * airflow_dag_runner: the DAG runner of [main.py]

    A shallow embedding of [AirflowDagRunner] (authentication, trigger,
    the monitor loop and the log tailer [_print_task_logs]) and of the
    [__main__] block, with the properties of the specification proved
    about it.

    The program talks to an HTTP server and prints to the console.  The
    server is an explicit environment (the reply to every request), the
    console and the requests made are an explicit trace, and Python
    exceptions are values of a sum type threaded through the code.

    What the embedding leaves out: JSON numbers that are not integers;
    the headers of the session; [KeyboardInterrupt] and [SystemExit],
    which [except Exception] does not catch; the passing of time in
    [time.sleep].  Strings are sequences of bytes (UTF-8); what the
    interpreter computes from its own tables (the case mapping of strings
    with non-ASCII characters, [repr], the text of its exceptions) is a
    parameter of the embedding. *)

From Stdlib Require Import ZArith List String Ascii Bool Lia DecimalString Sorted.
Import ListNotations.
Open Scope string_scope.
Open Scope Z_scope.

Set Warnings "-register-all".
Unset Elimination Schemes.

(** ** Python values coming out of [response.json()] *)

(** The values [json.loads] produces.  Numbers are the integers (floats
    are left out); an object is the list of its items in insertion order,
    looked up by key.  Strings are sequences of bytes (UTF-8). *)
Inductive json : Type :=
| JNull : json
| JBool : bool -> json
| JNum : Z -> json
| JStr : string -> json
| JList : list json -> json
| JObj : list (string * json) -> json.
Set Elimination Schemes.

(** The exceptions the program can meet.  The first three are raised by
    the [requests] session ([get]/[post], [raise_for_status], [json]); the
    next six by the interpreter; [PyException] is [Exception(msg)], which
    the program raises itself. *)
Inductive exn : Type :=
| ConnectionError
| HTTPError
| JSONDecodeError
| AttributeError
| TypeError
| KeyError
| IndexError
| ValueError
| OverflowError
| PyException (msg : string).

(** A computation that returns or raises. *)
Definition py (A : Type) : Type := (exn + A)%type.

Definition ret {A} (a : A) : py A := inr a.
Definition raise {A} (e : exn) : py A := inl e.
Definition bind {A B} (m : py A) (k : A -> py B) : py B :=
  match m with
  | inl e => inl e
  | inr a => k a
  end.

Declare Scope py_scope.
Delimit Scope py_scope with py.
Notation "x <- m ;; k" := (bind m (fun x => k))
  (at level 61, m at next level, right associativity) : py_scope.

(** [bool(v)]: truth value testing. *)
Definition py_truthy (v : json) : bool :=
  match v with
  | JNull => false
  | JBool b => b
  | JNum n => negb (n =? 0)
  | JStr s => negb (s =? "")%string
  | JList l => match l with [] => false | _ => true end
  | JObj d => match d with [] => false | _ => true end
  end.

Fixpoint lookup (k : string) (d : list (string * json)) : option json :=
  match d with
  | [] => None
  | (k', v) :: d' => if (k =? k')%string then Some v else lookup k d'
  end.

(** [a == b].  [bool] is a subclass of [int] ([True == 1]); objects are
    equal when they have the same items, in any order. *)
Fixpoint py_eq (a b : json) {struct a} : bool :=
  match a, b with
  | JNull, JNull => true
  | JBool x, JBool y => Bool.eqb x y
  | JBool x, JNum n => Z.b2z x =? n
  | JNum n, JBool x => n =? Z.b2z x
  | JNum m, JNum n => m =? n
  | JStr s, JStr t => (s =? t)%string
  | JList l, JList m =>
      (fix go (l m : list json) : bool :=
         match l, m with
         | [], [] => true
         | x :: l', y :: m' => py_eq x y && go l' m'
         | _, _ => false
         end) l m
  | JObj d, JObj e =>
      Nat.eqb (List.length d) (List.length e) &&
      (fix go (d : list (string * json)) : bool :=
         match d with
         | [] => true
         | (k, v) :: d' =>
             match lookup k e with
             | Some w => py_eq v w
             | None => false
             end && go d'
         end) d
  | _, _ => false
  end.

(** [s > t] on strings: lexicographic on the code units. *)
Definition str_gt (s t : string) : bool :=
  match String.compare s t with
  | Gt => true
  | _ => false
  end.

(** [a > b].  Defined between two numbers (a [bool] counts as [0]/[1]),
    two strings and two lists (at the first pair of unequal elements);
    every other pair raises [TypeError]. *)
Fixpoint py_gt (a b : json) {struct a} : py bool :=
  match a, b with
  | JBool x, JBool y => ret (Z.b2z x >? Z.b2z y)
  | JBool x, JNum n => ret (Z.b2z x >? n)
  | JNum n, JBool x => ret (n >? Z.b2z x)
  | JNum m, JNum n => ret (m >? n)
  | JStr s, JStr t => ret (str_gt s t)
  | JList l, JList m =>
      (fix go (l m : list json) : py bool :=
         match l, m with
         | [], _ => ret false
         | _ :: _, [] => ret true
         | x :: l', y :: m' => if py_eq x y then go l' m' else py_gt x y
         end) l m
  | _, _ => raise TypeError
  end.

(** [hash(v)] succeeds: lists and dicts are unhashable. *)
Definition hashable (v : json) : bool :=
  match v with
  | JList _ | JObj _ => false
  | _ => true
  end.

(** [v.get(key, default)]: only a [dict] has the method. *)
Definition py_get (v : json) (key : string) (default : json) : py json :=
  match v with
  | JObj d => ret (match lookup key d with Some x => x | None => default end)
  | _ => raise AttributeError
  end.

(** [v[key]] with a string key. *)
Definition getitem_key (v : json) (key : string) : py json :=
  match v with
  | JObj d => match lookup key d with Some x => ret x | None => raise KeyError end
  | _ => raise TypeError
  end.

Definition chars (s : string) : list json :=
  map (fun c => JStr (String c EmptyString)) (list_ascii_of_string s).

(** [v[0]]. *)
Definition getitem_0 (v : json) : py json :=
  match v with
  | JList l => match l with x :: _ => ret x | [] => raise IndexError end
  | JStr s => match chars s with x :: _ => ret x | [] => raise IndexError end
  | JObj _ => raise KeyError
  | _ => raise TypeError
  end.

(** [for x in v]: the elements of a list, the characters of a string, the
    keys of a dict. *)
Definition py_iter (v : json) : py (list json) :=
  match v with
  | JList l => ret l
  | JStr s => ret (chars s)
  | JObj d => ret (map (fun kv => JStr (fst kv)) d)
  | _ => raise TypeError
  end.

(** [v in l] for a list of strings [l]. *)
Definition in_strs (v : json) (l : list string) : bool :=
  match v with
  | JStr s => existsb (String.eqb s) l
  | _ => false
  end.

(** [v in s] for a [set] [s]: the element is hashed first. *)
Definition in_set (v : json) (s : list json) : py bool :=
  if hashable v then ret (existsb (py_eq v) s) else raise TypeError.

(** [str.lower] and [str.upper] on an ASCII character. *)
Definition lower_ascii (c : ascii) : ascii :=
  let n := nat_of_ascii c in
  if ((65 <=? n) && (n <=? 90))%nat then ascii_of_nat (n + 32) else c.
Definition upper_ascii (c : ascii) : ascii :=
  let n := nat_of_ascii c in
  if ((97 <=? n) && (n <=? 122))%nat then ascii_of_nat (n - 32) else c.

Fixpoint map_string (f : ascii -> ascii) (s : string) : string :=
  match s with
  | EmptyString => EmptyString
  | String c s' => String (f c) (map_string f s')
  end.

(** Every character of the string is an ASCII character. *)
Fixpoint is_ascii (s : string) : bool :=
  match s with
  | EmptyString => true
  | String c s' => (nat_of_ascii c <? 128)%nat && is_ascii s'
  end.

(** ** Text of values and exceptions *)

(** What the interpreter computes from its own tables for what the
    program formats but does not build: [repr] of a list or a dict,
    [str(e)] of an exception raised by [requests] or by the interpreter,
    and [str.upper] and [str.lower] of a string that has non-ASCII
    characters. *)
Class PyText : Type := {
  py_repr : json -> string;
  exn_text : exn -> string;
  upper_text : string -> string;
  lower_text : string -> string
}.

(** [s.upper()] and [s.lower()]: on an ASCII string the letters are
    mapped one by one; any other string is left to the interpreter. *)
Definition str_upper `{PyText} (s : string) : string :=
  if is_ascii s then map_string upper_ascii s else upper_text s.
Definition str_lower `{PyText} (s : string) : string :=
  if is_ascii s then map_string lower_ascii s else lower_text s.

(** [v.lower()] and [v.upper()]: only a [str] has the methods. *)
Definition py_lower `{PyText} (v : json) : py string :=
  match v with
  | JStr s => ret (str_lower s)
  | _ => raise AttributeError
  end.
Definition py_upper `{PyText} (v : json) : py string :=
  match v with
  | JStr s => ret (str_upper s)
  | _ => raise AttributeError
  end.

Definition str_of_Z (n : Z) : string :=
  DecimalString.NilZero.string_of_int (Z.to_int n).

(** [str(v)], as an f-string field [{v}] formats it. *)
Definition py_str `{PyText} (v : json) : string :=
  match v with
  | JNull => "None"
  | JBool true => "True"
  | JBool false => "False"
  | JNum n => str_of_Z n
  | JStr s => s
  | _ => py_repr v
  end.

(** [str(e)]. *)
Definition str_exn `{PyText} (e : exn) : string :=
  match e with
  | PyException msg => msg
  | _ => exn_text e
  end.

(** ** The server and the trace *)

(** The outcome of [r = session.get(...)] (or [post]), [r.raise_for_status()]
    and [r.json()] in sequence: the first raises when the server cannot be
    reached, the second on an error status, the third on a body that is
    not JSON. *)
Inductive reply : Type :=
| Unreachable
| ErrorStatus
| NotJson
| Json (j : json).

Definition fetch_json (r : reply) : py json :=
  match r with
  | Unreachable => raise ConnectionError
  | ErrorStatus => raise HTTPError
  | NotJson => raise JSONDecodeError
  | Json j => ret j
  end.

(** What the program does to the outside, in order. *)
Inductive event : Type :=
| Post (url : string) (payload : json)
| Get (url : string) (params : list (string * json))
| Print (line : string)
| Sleep (seconds : Z).

(** A computation that also extends the trace; the events emitted before
    an exception stay. *)
Definition io (A : Type) : Type := list event -> list event * py A.

Definition io_ret {A} (a : A) : io A := fun t => (t, ret a).
Definition io_bind {A B} (m : io A) (k : A -> io B) : io B :=
  fun t => match m t with
           | (t', inl e) => (t', inl e)
           | (t', inr a) => k a t'
           end.
Definition lift {A} (m : py A) : io A := fun t => (t, m).
Definition emit (e : event) : io unit := fun t => ((t ++ [e])%list, ret tt).

(** [try: m  except Exception as e: h e]. *)
Definition try_except {A} (m : io A) (h : exn -> io A) : io A :=
  fun t => match m t with
           | (t', inl e) => h e t'
           | (t', inr a) => (t', inr a)
           end.

Declare Scope io_scope.
Delimit Scope io_scope with io.
Notation "x <- m ;; k" := (io_bind m (fun x => k))
  (at level 61, m at next level, right associativity) : io_scope.
Notation "m ;; k" := (io_bind m (fun _ => k))
  (at level 61, right associativity) : io_scope.

(** ** [AirflowDagRunner] *)

(** [arg.split(',')], the type of the [--log_sources] option (its default
    "root,task" goes through it too). *)
Fixpoint list_of_str (arg : string) : list string :=
  match arg with
  | EmptyString => [EmptyString]
  | String c rest =>
      if (c =? ",")%char then EmptyString :: list_of_str rest
      else match list_of_str rest with
           | x :: l => String c x :: l
           | [] => [String c EmptyString]
           end
  end.

(** [s.rstrip('/')]. *)
Fixpoint rstrip_slash (s : string) : string :=
  match s with
  | EmptyString => EmptyString
  | String c s' =>
      match rstrip_slash s' with
      | EmptyString => if (c =? "/")%char then EmptyString else String c EmptyString
      | r => String c r
      end
  end.

Record AirflowDagRunner : Type := {
  airflow_url : string;
  log_sources : list string;
  access_token : json
}.

Definition _API_DAGS_URI : string := "api/v2/dags".

Section Runner.

Context `{PyText}.

Open Scope io_scope.

Definition _get_access_token (airflow_url username password : string)
    (r : reply) : io json :=
  let auth_url := airflow_url ++ "/auth/token" in
  try_except
    (emit (Post auth_url (JObj [("username", JStr username);
                                ("password", JStr password)])) ;;
     body <- lift (fetch_json r) ;;
     lift (py_get body "access_token" JNull))
    (fun e => lift (raise (PyException ("Ошибка аутентификации: " ++ str_exn e)))).

Definition __init__ (airflow_url username password : string)
    (log_sources : list string) (r : reply) : io AirflowDagRunner :=
  let airflow_url := rstrip_slash airflow_url in
  access_token <- _get_access_token airflow_url username password r ;;
  io_ret {| airflow_url := airflow_url;
            log_sources := log_sources;
            access_token := access_token |}.

Definition trigger_dag (self : AirflowDagRunner) (dag_id : string)
    (conf : json) (r : reply) : io json :=
  let trigger_url :=
    airflow_url self ++ "/" ++ _API_DAGS_URI ++ "/" ++ dag_id ++ "/dagRuns" in
  let payload :=
    JObj [("logical_date", JNull);
          ("conf", if py_truthy conf then conf else JObj [])] in
  try_except
    (emit (Post trigger_url payload) ;;
     body <- lift (fetch_json r) ;;
     lift (py_get body "dag_run_id" JNull))
    (fun e => lift (raise (PyException ("Ошибка запуска DAG: " ++ str_exn e)))).

(** *** The log tailer *)

(** The condition of the comprehension,
    [not self.log_sources or r.get("logger") in self.log_sources
     and (not cutoff or r.get('timestamp') > cutoff)],
    with [and] binding tighter than [or] and both short-circuiting. *)
Definition keep_log (sources : list string) (cutoff r : json) : py bool :=
  (match sources with
   | [] => ret true
   | _ =>
       logger <- py_get r "logger" JNull ;;
       if in_strs logger sources then
         if negb (py_truthy cutoff) then ret true
         else ts <- py_get r "timestamp" JNull ;; py_gt ts cutoff
       else ret false
   end)%py.

(** [[r for r in log_content if ...]]. *)
Fixpoint filter_logs (sources : list string) (cutoff : json)
    (log_content : list json) : py (list json) :=
  (match log_content with
   | [] => ret []
   | r :: rest =>
       b <- keep_log sources cutoff r ;;
       kept <- filter_logs sources cutoff rest ;;
       ret (if b then r :: kept else kept)
   end)%py.

(** [try: error_detail = log_item['error_detail'][0]['exc_value']
     except (IndexError, KeyError, TypeError): pass], starting from
    [error_detail = None]. *)
Definition error_detail_of (log_item : json) : py json :=
  match (d <- getitem_key log_item "error_detail" ;;
         x <- getitem_0 d ;;
         getitem_key x "exc_value")%py with
  | inl IndexError | inl KeyError | inl TypeError => ret JNull
  | other => other
  end.

(** The text one iteration of [for log_item in filtered_logs] prints. *)
Definition log_line (task_id log_item : json) : py string :=
  (ts <- getitem_key log_item "timestamp" ;;
   event <- py_get log_item "event" JNull ;;
   level <- py_get log_item "level" JNull ;;
   error_detail <- error_detail_of log_item ;;
   lowered <- py_lower level ;;
   let msg := if (lowered =? "error")%string && py_truthy error_detail
              then py_str event ++ ": " ++ py_str error_detail
              else py_str event in
   upper <- py_upper level ;;
   ret (py_str ts ++ " - " ++ py_str task_id ++ ": [" ++ upper ++ "] " ++ msg))%py.

Fixpoint print_logs (task_id : json) (filtered_logs : list json) : io unit :=
  match filtered_logs with
  | [] => io_ret tt
  | log_item :: rest =>
      line <- lift (log_line task_id log_item) ;;
      emit (Print line) ;;
      print_logs task_id rest
  end.

Definition log_url_of (self : AirflowDagRunner) (dag_id : string)
    (dag_run_id task_id : json) : string :=
  airflow_url self ++ "/" ++ _API_DAGS_URI ++ "/" ++ dag_id ++ "/dagRuns/"
    ++ py_str dag_run_id ++ "/taskInstances/" ++ py_str task_id ++ "/logs/1".

(** The body of the [try] of [_print_task_logs]. *)
Definition print_task_logs_body (self : AirflowDagRunner) (dag_id : string)
    (dag_run_id task_id cutoff : json) (r : reply) : io json :=
  emit (Get (log_url_of self dag_id dag_run_id task_id)
            [("full_content", JBool true)]) ;;
  body <- lift (fetch_json r) ;;
  content <- lift (py_get body "content" (JStr "Логи отсутствуют")) ;;
  log_content <- lift (py_iter content) ;;
  filtered_logs <- lift (filter_logs (log_sources self) cutoff log_content) ;;
  print_logs task_id filtered_logs ;;
  match filtered_logs with
  | [] => io_ret cutoff
  | l :: _ => lift (getitem_key (last filtered_logs l) "timestamp")
  end.

(** The handler prints and falls off the end of the function: [None]. *)
Definition _print_task_logs (self : AirflowDagRunner) (dag_id : string)
    (dag_run_id task_id cutoff : json) (r : reply) : io json :=
  try_except
    (print_task_logs_body self dag_id dag_run_id task_id cutoff r)
    (fun e =>
       emit (Print ("Не удалось получить логи для задачи " ++ py_str task_id
                    ++ ": " ++ str_exn e)) ;;
       io_ret JNull).

(** *** The monitor *)

Definition completed_states : list json := [JStr "success"; JStr "failed"].
Definition running_states : list json := [JStr "running"].

(** [v in l] for a list [l]: compared with [==], nothing is hashed. *)
Definition in_list (v : json) (l : list json) : bool := existsb (py_eq v) l.

(** The two local variables of [monitor_dag]: the set [logged_tasks] and
    the dict [task_log_cutoffs], both keyed with [==]. *)
Record monitor_state : Type := {
  logged_tasks : list json;
  task_log_cutoffs : list (json * json)
}.

(** [d.get(k)]. *)
Fixpoint dict_get (d : list (json * json)) (k : json) : json :=
  match d with
  | [] => JNull
  | (k', v) :: d' => if py_eq k k' then v else dict_get d' k
  end.

(** [d[k] = v]. *)
Fixpoint dict_set (d : list (json * json)) (k v : json) : list (json * json) :=
  match d with
  | [] => [(k, v)]
  | (k', v') :: d' =>
      if py_eq k k' then (k', v) :: d' else (k', v') :: dict_set d' k v
  end.

(** [s.add(k)]. *)
Definition set_add (s : list json) (k : json) : list json :=
  if existsb (py_eq k) s then s else (s ++ [k])%list.

(** The replies of the server during one pass of the loop: to the status
    request, to the task-list request, and to the log request made for the
    task at each position of the task list. *)
Record poll : Type := {
  status : reply;
  tasks : reply;
  logs : nat -> reply
}.

(** The body of [for task in tasks]; [r] is the reply to the log request
    of this task, should one be made. *)
Definition process_task (self : AirflowDagRunner) (dag_id : string)
    (dag_run_id task : json) (r : reply) (st : monitor_state)
    : io monitor_state :=
  task_id <- lift (py_get task "task_id" JNull) ;;
  task_state <- lift (py_get task "state" JNull) ;;
  logged <- lift (in_set task_id (logged_tasks st)) ;;
  if logged : bool then io_ret st
  else
    st1 <- (if in_list task_state (running_states ++ completed_states)%list
            then
              cutoff <- _print_task_logs self dag_id dag_run_id task_id
                          (dict_get (task_log_cutoffs st) task_id) r ;;
              io_ret {| logged_tasks := logged_tasks st;
                        task_log_cutoffs :=
                          dict_set (task_log_cutoffs st) task_id cutoff |}
            else io_ret st) ;;
    completed <- lift (in_set task_state completed_states) ;;
    if completed : bool
    then io_ret {| logged_tasks := set_add (logged_tasks st1) task_id;
                   task_log_cutoffs := task_log_cutoffs st1 |}
    else io_ret st1.

Fixpoint for_tasks (self : AirflowDagRunner) (dag_id : string)
    (dag_run_id : json) (task_list : list json) (i : nat)
    (log_replies : nat -> reply) (st : monitor_state) : io monitor_state :=
  match task_list with
  | [] => io_ret st
  | task :: rest =>
      st' <- process_task self dag_id dag_run_id task (log_replies i) st ;;
      for_tasks self dag_id dag_run_id rest (S i) log_replies st'
  end.

(** What [time.sleep(secs)] refuses: a length that does not fit the
    clock of the interpreter (nanoseconds in 64 bits) with
    [OverflowError], then a negative one with [ValueError]. *)
Definition sleep_refused (secs : Z) : option exn :=
  if (secs <? -9223372036) || (9223372036 <? secs) then Some OverflowError
  else if secs <? 0 then Some ValueError
  else None.

(** [time.sleep(secs)]. *)
Definition sleep (secs : Z) : io unit :=
  match sleep_refused secs with
  | Some e => lift (raise e)
  | None => emit (Sleep secs)
  end.

(** The body of the [try] of one pass; [true] stands for the [break]
    after the completion message. *)
Definition status_url_of (self : AirflowDagRunner) (dag_id : string)
    (dag_run_id : json) : string :=
  airflow_url self ++ "/" ++ _API_DAGS_URI ++ "/" ++ dag_id ++ "/dagRuns/"
    ++ py_str dag_run_id.

Definition tasks_url_of (self : AirflowDagRunner) (dag_id : string)
    (dag_run_id : json) : string :=
  airflow_url self ++ "/" ++ _API_DAGS_URI ++ "/" ++ dag_id ++ "/dagRuns/"
    ++ py_str dag_run_id ++ "/taskInstances".

Definition tick_body (self : AirflowDagRunner) (dag_id : string)
    (dag_run_id : json) (interval : Z) (p : poll) (st : monitor_state)
    : io (monitor_state * bool) :=
  let status_url := status_url_of self dag_id dag_run_id in
  let tasks_url := tasks_url_of self dag_id dag_run_id in
  emit (Get status_url []) ;;
  status_body <- lift (fetch_json (status p)) ;;
  state <- lift (py_get status_body "state" JNull) ;;
  emit (Get tasks_url []) ;;
  tasks_body <- lift (fetch_json (tasks p)) ;;
  task_instances <- lift (py_get tasks_body "task_instances" (JList [])) ;;
  task_list <- lift (py_iter task_instances) ;;
  st' <- for_tasks self dag_id dag_run_id task_list 0 (logs p) st ;;
  completed <- lift (in_set state completed_states) ;;
  if completed : bool
  then emit (Print ("DAG завершен со статусом: " ++ py_str state)) ;;
       io_ret (st', true)
  else sleep interval ;;
       io_ret (st', false).

(** How the loop was left: by the [break] after the completion message or
    by the [break] of the handler. *)
Inductive loop_exit : Type := Completed | Aborted.

Inductive step : Type :=
| Next (st : monitor_state)
| Break (how : loop_exit).

(** One pass of [while True], handler included. *)
Definition monitor_tick (self : AirflowDagRunner) (dag_id : string)
    (dag_run_id : json) (interval : Z) (p : poll) (st : monitor_state)
    (t : list event) : list event * step :=
  match tick_body self dag_id dag_run_id interval p st t with
  | (t', inr (_, true)) => (t', Break Completed)
  | (t', inr (st', false)) => (t', Next st')
  | (t', inl e) =>
      ((t' ++ [Print ("Ошибка мониторинга: " ++ str_exn e)])%list, Break Aborted)
  end.

(** The loop, run against the replies of the successive passes; [None]
    when it is still polling after the last of them. *)
Fixpoint monitor_loop (self : AirflowDagRunner) (dag_id : string)
    (dag_run_id : json) (interval : Z) (polls : list poll)
    (st : monitor_state) (t : list event) : list event * option loop_exit :=
  match polls with
  | [] => (t, None)
  | p :: rest =>
      match monitor_tick self dag_id dag_run_id interval p st t with
      | (t', Next st') => monitor_loop self dag_id dag_run_id interval rest st' t'
      | (t', Break how) => (t', Some how)
      end
  end.

Definition monitor_dag (self : AirflowDagRunner) (dag_id : string)
    (dag_run_id : json) (interval : Z) (polls : list poll)
    : io (option loop_exit) :=
  fun t =>
    let (t', res) :=
      monitor_loop self dag_id dag_run_id interval polls
        {| logged_tasks := []; task_log_cutoffs := [] |} t in
    (t', ret res).

(** *** [__main__] *)

Record args : Type := {
  args_url : string;
  args_dag : string;
  args_user : string;
  args_password : string;
  args_interval : Z;
  args_log_sources : list string
}.

Record server : Type := {
  auth : reply;
  trigger : reply;
  polls : list poll
}.

Definition main_body (a : args) (s : server) : io (option loop_exit) :=
  runner <- __init__ (args_url a) (args_user a) (args_password a)
              (args_log_sources a) (auth s) ;;
  dag_run_id <- trigger_dag runner (args_dag a) JNull (trigger s) ;;
  emit (Print ("DAG Run ID: " ++ py_str dag_run_id)) ;;
  monitor_dag runner (args_dag a) dag_run_id (args_interval a) (polls s).

(** The process: it exits with a code, or is still in the monitor loop
    when the replies of the server are used up. *)
Inductive process : Type :=
| Exited (code : Z)
| Polling.

Definition main (a : args) (s : server) : list event * process :=
  match main_body a s [] with
  | (t, inl e) => ((t ++ [Print ("Ошибка: " ++ str_exn e)])%list, Exited 1)
  | (t, inr (Some _)) => (t, Exited 0)
  | (t, inr None) => (t, Polling)
  end.

End Runner.

(** ** Vocabulary of the properties *)

(** [e.get(key)] read as a total function: [None] when [e] is not a dict
    or lacks the key. *)
Definition field (e : json) (key : string) : json :=
  match e with
  | JObj d => match lookup key d with Some v => v | None => JNull end
  | _ => JNull
  end.

(** An entry the printing loop can render: a dict with a [timestamp] key
    whose [level] is a string. *)
Definition renderable (e : json) : bool :=
  match e with
  | JObj d =>
      match lookup "timestamp" d, lookup "level" d with
      | Some _, Some (JStr _) => true
      | _, _ => false
      end
  | _ => false
  end.

(** The value at [error_detail[0].exc_value], when every step of the path
    exists. *)
Definition nested_exc_value (e : json) : option json :=
  match field e "error_detail" with
  | JList (JObj x :: _) => lookup "exc_value" x
  | _ => None
  end.

Definition level_text (e : json) : string :=
  match field e "level" with
  | JStr s => s
  | _ => ""
  end.

(** A task instance the loop body can process: a dict whose [task_id] and
    [state] can be hashed. *)
Definition task_ok (task : json) : bool :=
  match task with
  | JObj _ => hashable (field task "task_id") && hashable (field task "state")
  | _ => false
  end.

(** What a pass reads from the status reply and from the task-list reply,
    and what authentication reads from the token reply. *)
Definition run_state_of (p : poll) : py json :=
  (body <- fetch_json (status p) ;; py_get body "state" JNull)%py.

Definition task_list_of (p : poll) : py (list json) :=
  (body <- fetch_json (tasks p) ;;
   task_instances <- py_get body "task_instances" (JList []) ;;
   py_iter task_instances)%py.

Definition token_of (r : reply) : py json :=
  (body <- fetch_json r ;; py_get body "access_token" JNull)%py.

(** A pass whose status and task list are read without error: the run
    state can be hashed and every task instance is well-formed.  Nothing
    is asked of the log replies. *)
Definition healthy (p : poll) : bool :=
  match run_state_of p, task_list_of p with
  | inr s, inr tl => hashable s && forallb task_ok tl
  | _, _ => false
  end.

(** The run state read at the pass is terminal. *)
Definition terminal (p : poll) : bool :=
  match run_state_of p with
  | inr s => in_list s completed_states
  | inl _ => false
  end.

Definition is_obj (e : json) : bool :=
  match e with
  | JObj _ => true
  | _ => false
  end.

(** [ts > cutoff] holds. *)
Definition gt_cutoff (ts cutoff : json) : bool :=
  match py_gt ts cutoff with
  | inr b => b
  | inl _ => false
  end.

(** [ts > cutoff] does not raise. *)
Definition comparable (ts cutoff : json) : bool :=
  match py_gt ts cutoff with
  | inr _ => true
  | inl _ => false
  end.

(** An entry on which the condition of the comprehension cannot raise: a
    dict whose timestamp can be compared with the cutoff, when one is
    set. *)
Definition well_typed_log (cutoff e : json) : bool :=
  is_obj e && (negb (py_truthy cutoff) || comparable (field e "timestamp") cutoff).

(** The filtering policy in the words of the specification: an entry is
    kept if no source filter is configured, or its logger is an allowed
    source and (no cutoff is set or its timestamp is strictly greater than
    the cutoff).  The cutoff counts as not set when it is falsy. *)
Definition spec_keeps (sources : list string) (cutoff e : json) : bool :=
  match sources with
  | [] => true
  | _ =>
      in_strs (field e "logger") sources
      && (negb (py_truthy cutoff) || gt_cutoff (field e "timestamp") cutoff)
  end.

(** The longest prefix of the kept entries that can be rendered. *)
Fixpoint printed_of (kept : list json) : list json :=
  match kept with
  | [] => []
  | e :: rest => if renderable e then e :: printed_of rest else []
  end.

(** The value the tailer returns when nothing raises. *)
Definition new_cutoff (cutoff : json) (kept : list json) : json :=
  match kept with
  | [] => cutoff
  | l :: _ => field (last kept l) "timestamp"
  end.

(** The lines a trace shows on the console. *)
Fixpoint printed_lines (t : list event) : list string :=
  match t with
  | [] => []
  | Print line :: t' => line :: printed_lines t'
  | _ :: t' => printed_lines t'
  end.

Section Vocabulary.
Context `{PyText}.

(** The message of a line in the words of the specification:
    [event: exc_value] when the level is "error" whatever its case and a
    truthy value exists at [error_detail[0].exc_value], [event] otherwise. *)
Definition message_of (e : json) : string :=
  match nested_exc_value e with
  | Some v =>
      if (str_lower (level_text e) =? "error")%string && py_truthy v
      then py_str (field e "event") ++ ": " ++ py_str v
      else py_str (field e "event")
  | None => py_str (field e "event")
  end.

(** [timestamp - task_id: [LEVEL] message]. *)
Definition rendered_line (task_id e : json) : string :=
  py_str (field e "timestamp") ++ " - " ++ py_str task_id ++ ": ["
    ++ str_upper (level_text e) ++ "] " ++ message_of e.

(** The entries a call of the tailer keeps: the reply is fetched, its
    [content] iterated and filtered. *)
Definition kept_logs (self : AirflowDagRunner) (cutoff : json) (r : reply)
    : py (list json) :=
  (body <- fetch_json r ;;
   content <- py_get body "content" (JStr "Логи отсутствуют") ;;
   log_content <- py_iter content ;;
   filter_logs (log_sources self) cutoff log_content)%py.

(** The request and the diagnostic of [_print_task_logs]. *)
Definition log_request (self : AirflowDagRunner) (dag_id : string)
    (dag_run_id task_id : json) : event :=
  Get (log_url_of self dag_id dag_run_id task_id) [("full_content", JBool true)].

Definition log_diagnostic (task_id : json) (e : exn) : event :=
  Print ("Не удалось получить логи для задачи " ++ py_str task_id ++ ": "
         ++ str_exn e).

End Vocabulary.

(** ** Sample runs *)

Definition exn_name (e : exn) : string :=
  match e with
  | ConnectionError => "ConnectionError"
  | HTTPError => "HTTPError"
  | JSONDecodeError => "JSONDecodeError"
  | AttributeError => "AttributeError"
  | TypeError => "TypeError"
  | KeyError => "KeyError"
  | IndexError => "IndexError"
  | ValueError => "ValueError"
  | OverflowError => "OverflowError"
  | PyException msg => msg
  end.

(** A rendering that names the class of an exception and abbreviates
    lists and dicts; the sample runs below are computed with it.  Their
    levels are ASCII strings, so the case mappings it gives are not
    consulted. *)
Definition sample_text : PyText :=
  {| py_repr := fun v => match v with JList _ => "[...]" | _ => "{...}" end;
     exn_text := exn_name;
     upper_text := fun s => s;
     lower_text := fun s => s |}.

Definition sample_runner : AirflowDagRunner :=
  {| airflow_url := "http://localhost:8080";
     log_sources := ["root"; "task"];
     access_token := JStr "token" |}.


Definition sample_args : args :=
  {| args_url := "http://localhost:8080/";
     args_dag := "etl";
     args_user := "admin";
     args_password := "secret";
     args_interval := 5;
     args_log_sources := ["root"; "task"] |}.

Definition log_entry (logger timestamp level event : string) : json :=
  JObj [("timestamp", JStr timestamp); ("logger", JStr logger);
        ("level", JStr level); ("event", JStr event)].

Definition logs_reply (entries : list json) : reply :=
  Json (JObj [("content", JList entries)]).

Definition task_instance (task_id state : string) : json :=
  JObj [("task_id", JStr task_id); ("state", JStr state)].

Definition poll_of (run_state : string) (task_list : list json)
    (log_replies : nat -> reply) : poll :=
  {| status := Json (JObj [("state", JStr run_state)]);
     tasks := Json (JObj [("task_instances", JList task_list)]);
     logs := log_replies |}.

Definition empty_state : monitor_state :=
  {| logged_tasks := []; task_log_cutoffs := [] |}.

Definition entry_0 : json := log_entry "task" "2024-01-01T00:00:00" "info" "started".
Definition entry_5 : json := log_entry "task" "2024-01-01T00:00:05" "info" "finished".

(** An error entry carrying an exception value, and the same with an
    empty [error_detail]. *)
Definition entry_boom : json :=
  JObj [("timestamp", JStr "2024-01-01T00:00:07"); ("logger", JStr "task");
        ("level", JStr "ERROR"); ("event", JStr "boom");
        ("error_detail", JList [JObj [("exc_value", JStr "oops")]])].
Definition entry_boom_bare : json :=
  JObj [("timestamp", JStr "2024-01-01T00:00:07"); ("logger", JStr "task");
        ("level", JStr "ERROR"); ("event", JStr "boom");
        ("error_detail", JList [])].

(** An entry without a level. *)
Definition entry_no_level : json :=
  JObj [("timestamp", JStr "2024-01-01T00:00:09"); ("logger", JStr "task");
        ("event", JStr "::group::details")].

Definition poll_running_0 : poll :=
  poll_of "running" [task_instance "t1" "running"] (fun _ => logs_reply [entry_0]).
Definition poll_running_unreachable_logs : poll :=
  poll_of "running" [task_instance "t1" "running"] (fun _ => Unreachable).
Definition poll_success_0_5 : poll :=
  poll_of "success" [task_instance "t1" "success"]
    (fun _ => logs_reply [entry_0; entry_5]).

Definition sample_server : server :=
  {| auth := Json (JObj [("access_token", JStr "token")]);
     trigger := Json (JObj [("dag_run_id", JStr "r1")]);
     polls := [poll_running_0; poll_success_0_5] |}.

Definition rejecting_server : server :=
  {| auth := ErrorStatus;
     trigger := trigger sample_server;
     polls := polls sample_server |}.

(** The two entries of the filtering examples of the specification. *)
Definition entry_task_t1 : json :=
  JObj [("logger", JStr "task"); ("timestamp", JStr "t1")].
Definition entry_root_t2 : json :=
  JObj [("logger", JStr "root"); ("timestamp", JStr "t2")].

(** ** Vocabulary of the further properties *)

(** [','.join(l)]. *)
Fixpoint join_comma (l : list string) : string :=
  match l with
  | [] => ""
  | x :: rest =>
      match rest with
      | [] => x
      | _ => x ++ "," ++ join_comma rest
      end
  end.

(** The string contains a comma. *)
Fixpoint has_comma (s : string) : bool :=
  match s with
  | EmptyString => false
  | String c s' => (c =? ",")%char || has_comma s'
  end.

(** The string ends with a slash. *)
Fixpoint ends_with_slash (s : string) : bool :=
  match s with
  | EmptyString => false
  | String c s' =>
      match s' with
      | EmptyString => (c =? "/")%char
      | _ => ends_with_slash s'
      end
  end.

(** [n] slashes. *)
Fixpoint slashes (n : nat) : string :=
  match n with
  | O => ""
  | S n' => String "/" (slashes n')
  end.

(** What [trigger_dag] reads from the reply to its request. *)
Definition run_id_of (r : reply) : py json :=
  (body <- fetch_json r ;; py_get body "dag_run_id" JNull)%py.

(** The exit code once the monitor has returned, if it has. *)
Definition exit_of (res : option loop_exit) : process :=
  match res with
  | Some _ => Exited 0
  | None => Polling
  end.

(** The timestamp of [a] is not greater than that of [b]. *)
Definition timestamp_le (a b : json) : Prop :=
  py_gt (field a "timestamp") (field b "timestamp") = inr false.

(** A dict whose timestamp is a non-empty string. *)
Definition stamped (e : json) : bool :=
  match e with
  | JObj _ =>
      match field e "timestamp" with
      | JStr s => negb (s =? "")%string
      | _ => false
      end
  | _ => false
  end.


(** Further sample data: a server that refuses the trigger, one whose
    answers lack the keys read from them, a pass with a queued task, and a
    reply whose body has no [content]. *)
Definition refusing_trigger_server : server :=
  {| auth := auth sample_server;
     trigger := ErrorStatus;
     polls := polls sample_server |}.

Definition keyless_server : server :=
  {| auth := Json (JObj [("detail", JStr "ok")]);
     trigger := Json (JObj [("detail", JStr "ok")]);
     polls := [] |}.


Definition reply_without_content : reply :=
  Json (JObj [("detail", JStr "Not Found")]).

(** ** Vocabulary of the history of a task *)











Section History.
Context `{PyText}.



(** The loop body executed for a sequence of task instances, each with
    the reply its log request gets: the task instances of the successive
    polls in the order the loop meets them.  Between two polls the monitor
    keeps [logged_tasks] and [task_log_cutoffs] as they are. *)
Fixpoint process_all (self : AirflowDagRunner) (dag_id : string)
    (dag_run_id : json) (steps : list (json * reply)) (st : monitor_state)
    : io monitor_state :=
  match steps with
  | [] => io_ret st
  | (task, r) :: rest =>
      io_bind (process_task self dag_id dag_run_id task r st)
        (fun st' => process_all self dag_id dag_run_id rest st')
  end.

End History.

(** The task instances of one poll with the replies to their log
    requests, as [for_tasks] pairs them. *)
Fixpoint pass_steps (task_list : list json) (i : nat)
    (log_replies : nat -> reply) : list (json * reply) :=
  match task_list with
  | [] => []
  | task :: rest => (task, log_replies i) :: pass_steps rest (S i) log_replies
  end.


(** Three polls of two tasks with logs in timestamp order, as steps. *)
Definition steps_before : list (json * reply) :=
  [(task_instance "t1" "running", logs_reply [entry_0])].
Definition steps_between : list (json * reply) :=
  [(task_instance "t2" "running", logs_reply [entry_0]);
   (task_instance "t1" "running", logs_reply [entry_0; entry_5])].

(** ** The log tailer *)

Section Tailer.
Context `{PyText}.

Lemma error_detail_of_total (e : json) :
  error_detail_of e =
  inr (match nested_exc_value e with Some v => v | None => JNull end).
Proof.
  unfold error_detail_of, nested_exc_value, field, getitem_key.
  destruct e as [| | | | |d]; try reflexivity.
  destruct (lookup "error_detail" d) as [x|]; [|reflexivity].
  destruct x as [| | |s|l|d']; try reflexivity.
  - simpl. unfold getitem_0, chars. destruct s; reflexivity.
  - destruct l as [|y l]; [reflexivity|].
    destruct y as [| | | | |dy]; try reflexivity.
    simpl. destruct (lookup "exc_value" dy); reflexivity.
Qed.

Lemma log_line_renderable (task_id e : json) :
  renderable e = true -> log_line task_id e = inr (rendered_line task_id e).
Proof.
  unfold renderable. destruct e as [| | | | |d]; try discriminate.
  destruct (lookup "timestamp" d) as [ts|] eqn:Hts; [|discriminate].
  destruct (lookup "level" d) as [lv|] eqn:Hlv; [|discriminate].
  destruct lv as [| | |lv| |]; try discriminate. intros _.
  unfold log_line. simpl. rewrite Hts, Hlv. simpl.
  rewrite error_detail_of_total. simpl.
  unfold rendered_line, message_of, level_text, field. rewrite Hts, Hlv.
  unfold ret. f_equal.
  destruct (nested_exc_value (JObj d)) as [v|]; [reflexivity|].
  simpl. rewrite andb_false_r. reflexivity.
Qed.

Lemma log_line_not_renderable (task_id e : json) :
  renderable e = false -> exists x, log_line task_id e = inl x.
Proof.
  unfold renderable, log_line. destruct e as [| | | | |d]; try (eexists; reflexivity).
  simpl.
  destruct (lookup "timestamp" d) as [ts|]; [|eexists; reflexivity].
  simpl. destruct (lookup "level" d) as [lv|].
  - destruct lv; try discriminate; intros _; simpl;
      rewrite error_detail_of_total; simpl; eexists; reflexivity.
  - intros _. simpl. rewrite error_detail_of_total. simpl. eexists; reflexivity.
Qed.

Lemma print_logs_trace (task_id : json) (kept : list json) (t : list event) :
  fst (print_logs task_id kept t) =
  (t ++ map (fun e => Print (rendered_line task_id e)) (printed_of kept))%list.
Proof.
  revert t. induction kept as [|e rest IH]; intro t; simpl.
  - now rewrite app_nil_r.
  - unfold io_bind, lift, emit. destruct (renderable e) eqn:He.
    + rewrite (log_line_renderable task_id e He). simpl.
      rewrite IH, <- app_assoc. reflexivity.
    + destruct (log_line_not_renderable task_id e He) as [x ->]. simpl.
      now rewrite app_nil_r.
Qed.

Lemma print_logs_ok (task_id : json) (kept : list json) (t : list event) :
  forallb renderable kept = true ->
  print_logs task_id kept t =
  ((t ++ map (fun e => Print (rendered_line task_id e)) kept)%list, inr tt).
Proof.
  revert t. induction kept as [|e rest IH]; intros t Hall; simpl.
  - now rewrite app_nil_r.
  - simpl in Hall. apply andb_prop in Hall as [He Hrest].
    unfold io_bind, lift, emit. rewrite (log_line_renderable task_id e He).
    simpl. rewrite (IH _ Hrest), <- app_assoc. reflexivity.
Qed.

Lemma print_logs_raises (task_id : json) (kept : list json) (t : list event) :
  forallb renderable kept = false ->
  exists x, snd (print_logs task_id kept t) = inl x.
Proof.
  revert t. induction kept as [|e rest IH]; intros t Hall; simpl in *.
  - discriminate.
  - unfold io_bind, lift, emit. destruct (renderable e) eqn:He.
    + rewrite (log_line_renderable task_id e He). simpl. apply IH, Hall.
    + destruct (log_line_not_renderable task_id e He) as [x ->]. simpl.
      now exists x.
Qed.

Lemma body_unfold (self : AirflowDagRunner) (dag_id : string)
    (dag_run_id task_id cutoff : json) (r : reply) (t : list event) :
  print_task_logs_body self dag_id dag_run_id task_id cutoff r t =
  let t0 := (t ++ [log_request self dag_id dag_run_id task_id])%list in
  match kept_logs self cutoff r with
  | inl e => (t0, inl e)
  | inr kept =>
      match print_logs task_id kept t0 with
      | (t', inl e) => (t', inl e)
      | (t', inr _) =>
          (t', match kept with
               | [] => inr cutoff
               | l :: _ => getitem_key (last kept l) "timestamp"
               end)
      end
  end.
Proof.
  unfold print_task_logs_body, kept_logs, log_request, io_bind, lift, emit, bind.
  simpl.
  destruct (fetch_json r) as [e|body]; [reflexivity|].
  destruct (py_get body "content" _) as [e|content]; [reflexivity|].
  destruct (py_iter content) as [e|log_content]; [reflexivity|].
  destruct (filter_logs _ cutoff log_content) as [e|kept]; [reflexivity|].
  destruct (print_logs task_id kept _) as [t' [e|[]]]; [reflexivity|].
  destruct kept; reflexivity.
Qed.

Lemma last_forallb (A : Type) (f : A -> bool) (l : list A) (d : A) :
  forallb f l = true -> f d = true -> f (last l d) = true.
Proof.
  induction l as [|a l IH]; simpl; intros Hl Hd; [exact Hd|].
  apply andb_prop in Hl as [Ha Hl]. destruct l; [exact Ha|]. now apply IH.
Qed.

Lemma getitem_timestamp_renderable (e : json) :
  renderable e = true -> getitem_key e "timestamp" = inr (field e "timestamp").
Proof.
  unfold renderable, getitem_key, field. destruct e; try discriminate.
  destruct (lookup "timestamp" l); [reflexivity|discriminate].
Qed.

Lemma print_task_logs_ok (self : AirflowDagRunner) (dag_id : string)
    (dag_run_id task_id cutoff : json) (r : reply) (t : list event)
    (kept : list json) :
  kept_logs self cutoff r = inr kept ->
  forallb renderable kept = true ->
  _print_task_logs self dag_id dag_run_id task_id cutoff r t =
  ((t ++ log_request self dag_id dag_run_id task_id
        :: map (fun e => Print (rendered_line task_id e)) kept)%list,
   inr (new_cutoff cutoff kept)).
Proof.
  intros Hk Hr. unfold _print_task_logs, try_except. rewrite body_unfold.
  cbv zeta. rewrite Hk, (print_logs_ok _ _ _ Hr), <- app_assoc. simpl.
  unfold new_cutoff. destruct kept as [|l kept']; [reflexivity|].
  rewrite getitem_timestamp_renderable; [reflexivity|].
  apply last_forallb; [exact Hr|]. simpl in Hr. now apply andb_prop in Hr.
Qed.

Lemma print_task_logs_never_raises (self : AirflowDagRunner) (dag_id : string)
    (dag_run_id task_id cutoff : json) (r : reply) (t : list event) :
  exists v, snd (_print_task_logs self dag_id dag_run_id task_id cutoff r t) = inr v.
Proof.
  unfold _print_task_logs, try_except.
  destruct (print_task_logs_body _ _ _ _ _ _ _) as [t' [e|v]]; simpl; eauto.
Qed.

End Tailer.

(** ** The monitor *)

Section Monitor.
Context `{PyText}.

Lemma py_eq_refl_hashable (v : json) : hashable v = true -> py_eq v v = true.
Proof.
  destruct v as [|b|n|s| |]; simpl; try discriminate; intros _.
  - reflexivity.
  - now destruct b.
  - apply Z.eqb_refl.
  - apply String.eqb_refl.
Qed.

Lemma py_eq_str (v : json) (s : string) : py_eq v (JStr s) = true -> v = JStr s.
Proof.
  destruct v; simpl; try discriminate.
  intros Heq. apply String.eqb_eq in Heq. now subst.
Qed.

Lemma in_completed_str (s : json) :
  in_list s completed_states = true -> s = JStr "success" \/ s = JStr "failed".
Proof.
  unfold in_list, completed_states. simpl. rewrite orb_false_r.
  intros Hs. apply orb_prop in Hs as [Hs|Hs]; apply py_eq_str in Hs; auto.
Qed.

Lemma in_completed_eligible (s : json) :
  in_list s completed_states = true ->
  in_list s (running_states ++ completed_states)%list = true.
Proof.
  unfold in_list. intros Hs. rewrite existsb_app, Hs. apply orb_true_r.
Qed.

Lemma in_set_hashable (v : json) (s : list json) :
  hashable v = true -> in_set v s = inr (in_list v s).
Proof. unfold in_set, in_list. now intros ->. Qed.

Lemma dict_get_set (d : list (json * json)) (k v : json) :
  hashable k = true -> dict_get (dict_set d k v) k = v.
Proof.
  intros Hk. induction d as [|[k' v'] d IH]; simpl.
  - now rewrite py_eq_refl_hashable.
  - destruct (py_eq k k') eqn:Hkk; simpl; rewrite Hkk; [reflexivity|exact IH].
Qed.

Lemma in_list_set_add (s : list json) (k x : json) :
  in_list x s = true -> in_list x (set_add s k) = true.
Proof.
  unfold set_add, in_list. intros Hx. destruct (existsb (py_eq k) s); [exact Hx|].
  rewrite existsb_app, Hx. reflexivity.
Qed.

Lemma task_fields (task : json) :
  task_ok task = true ->
  py_get task "task_id" JNull = inr (field task "task_id") /\
  py_get task "state" JNull = inr (field task "state") /\
  hashable (field task "task_id") = true /\
  hashable (field task "state") = true.
Proof.
  unfold task_ok. destruct task; try discriminate. intros Hok.
  apply andb_prop in Hok as [Hid Hs]. repeat split; assumption.
Qed.

Lemma task_get_ok (task task_id task_state : json) :
  py_get task "task_id" JNull = inr task_id ->
  py_get task "state" JNull = inr task_state ->
  hashable task_id = true ->
  hashable task_state = true ->
  task_ok task = true
  /\ field task "task_id" = task_id /\ field task "state" = task_state.
Proof.
  destruct task as [| | | | |d]; try discriminate. unfold py_get, task_ok, field.
  intros Hid Hs Hhid Hhs. injection Hid as Hid. injection Hs as Hs.
  rewrite Hid, Hs, Hhid, Hhs. auto.
Qed.

Lemma in_eligible_hashable (s : json) :
  in_list s (running_states ++ completed_states)%list = true ->
  hashable s = true.
Proof.
  unfold in_list, running_states, completed_states. simpl.
  rewrite orb_false_r. intros Hs.
  apply orb_prop in Hs as [Hs|Hs]; [|apply orb_prop in Hs as [Hs|Hs]];
    apply py_eq_str in Hs; now subst.
Qed.

(** The loop body on a well-formed task, step by step. *)
Lemma process_task_unfold (self : AirflowDagRunner) (dag_id : string)
    (dag_run_id task : json) (r : reply) (st : monitor_state) (t : list event) :
  task_ok task = true ->
  let id := field task "task_id" in
  let s := field task "state" in
  process_task self dag_id dag_run_id task r st t =
  if in_list id (logged_tasks st) then (t, inr st)
  else
    if in_list s (running_states ++ completed_states)%list then
      match _print_task_logs self dag_id dag_run_id id
              (dict_get (task_log_cutoffs st) id) r t with
      | (t', inr v) =>
          (t', inr {| logged_tasks :=
                        if in_list s completed_states
                        then set_add (logged_tasks st) id else logged_tasks st;
                      task_log_cutoffs := dict_set (task_log_cutoffs st) id v |})
      | (t', inl e) => (t', inl e)
      end
    else (t, inr st).
Proof.
  intros Hok id s. destruct (task_fields task Hok) as (Hid & Hs & Hhid & Hhs).
  subst id s. unfold process_task, io_bind, lift, io_ret. rewrite Hid, Hs.
  rewrite (in_set_hashable _ (logged_tasks st) Hhid).
  rewrite (in_set_hashable _ completed_states Hhs).
  destruct (in_list _ (logged_tasks st)); [reflexivity|].
  destruct (in_list _ completed_states) eqn:Hc.
  - rewrite (in_completed_eligible _ Hc).
    destruct (_print_task_logs _ _ _ _ _ _ _) as [t' [e|v]]; reflexivity.
  - destruct (in_list _ (running_states ++ completed_states)%list).
    + destruct (_print_task_logs _ _ _ _ _ _ _) as [t' [e|v]]; reflexivity.
    + destruct st; reflexivity.
Qed.

Lemma process_task_returns (self : AirflowDagRunner) (dag_id : string)
    (dag_run_id task : json) (r : reply) (st : monitor_state) (t : list event) :
  task_ok task = true ->
  exists t' st', process_task self dag_id dag_run_id task r st t = (t', inr st').
Proof.
  intros Hok. rewrite (process_task_unfold _ _ _ _ _ _ _ Hok).
  destruct (in_list _ (logged_tasks st)); [eauto|].
  destruct (in_list _ (running_states ++ completed_states)%list); [|eauto].
  destruct (print_task_logs_never_raises self dag_id dag_run_id
              (field task "task_id")
              (dict_get (task_log_cutoffs st) (field task "task_id")) r t)
    as [v Hv].
  destruct (_print_task_logs _ _ _ _ _ _ _) as [t' res]. simpl in Hv. subst res.
  eauto.
Qed.

Lemma for_tasks_returns (self : AirflowDagRunner) (dag_id : string)
    (dag_run_id : json) (tl : list json) (i : nat) (lg : nat -> reply)
    (st : monitor_state) (t : list event) :
  forallb task_ok tl = true ->
  exists t' st', for_tasks self dag_id dag_run_id tl i lg st t = (t', inr st').
Proof.
  revert i st t. induction tl as [|task rest IH]; intros i st t Hall; simpl.
  - unfold io_ret, ret. eauto.
  - simpl in Hall. apply andb_prop in Hall as [Hok Hrest].
    destruct (process_task_returns self dag_id dag_run_id task (lg i) st t Hok)
      as (t1 & st1 & Hp).
    unfold io_bind. rewrite Hp. apply IH, Hrest.
Qed.

Lemma tick_body_unfold (self : AirflowDagRunner) (dag_id : string)
    (dag_run_id : json) (interval : Z) (p : poll) (st : monitor_state)
    (t : list event) :
  tick_body self dag_id dag_run_id interval p st t =
  let get_status := Get (status_url_of self dag_id dag_run_id) [] in
  let get_tasks := Get (tasks_url_of self dag_id dag_run_id) [] in
  match run_state_of p with
  | inl e => ((t ++ [get_status])%list, inl e)
  | inr s =>
      match task_list_of p with
      | inl e => ((t ++ [get_status; get_tasks])%list, inl e)
      | inr tl =>
          match for_tasks self dag_id dag_run_id tl 0 (logs p) st
                  (t ++ [get_status; get_tasks])%list with
          | (t', inl e) => (t', inl e)
          | (t', inr st') =>
              match in_set s completed_states with
              | inl e => (t', inl e)
              | inr true =>
                  ((t' ++ [Print ("DAG завершен со статусом: " ++ py_str s)])%list,
                   inr (st', true))
              | inr false =>
                  match sleep_refused interval with
                  | Some e => (t', inl e)
                  | None => ((t' ++ [Sleep interval])%list, inr (st', false))
                  end
              end
          end
      end
  end.
Proof.
  unfold tick_body, run_state_of, task_list_of, io_bind, lift, emit, bind, sleep.
  cbv zeta. simpl.
  destruct (fetch_json (status p)) as [e|sb]; [reflexivity|].
  destruct (py_get sb "state" JNull) as [e|s]; [reflexivity|].
  rewrite <- app_assoc. simpl.
  destruct (fetch_json (tasks p)) as [e|tb]; [reflexivity|].
  destruct (py_get tb "task_instances" _) as [e|ti]; [reflexivity|].
  destruct (py_iter ti) as [e|tl]; [reflexivity|].
  destruct (for_tasks _ _ _ _ _ _ _ _) as [t' [e|st']]; [reflexivity|].
  destruct (in_set s completed_states) as [e|[|]]; try reflexivity.
  destruct (sleep_refused interval); reflexivity.
Qed.

End Monitor.

(** ** Properties of the log tailer *)

Section Claims.
Context `{PyText}.

Lemma keep_log_spec (sources : list string) (cutoff r : json) :
  sources = [] \/ well_typed_log cutoff r = true ->
  keep_log sources cutoff r = inr (spec_keeps sources cutoff r).
Proof.
  unfold keep_log, spec_keeps. destruct sources as [|s0 sources]; [reflexivity|].
  intros [Hs|Hw]; [discriminate|].
  unfold well_typed_log in Hw. apply andb_prop in Hw as [Hobj Hcmp].
  destruct r as [| | | | |d]; try discriminate.
  assert (Hget : forall k, py_get (JObj d) k JNull = inr (field (JObj d) k))
    by reflexivity.
  rewrite !Hget. cbn [bind].
  destruct (in_strs (field (JObj d) "logger") (s0 :: sources)); [|reflexivity].
  cbn [andb]. destruct (py_truthy cutoff); cbn [negb orb] in *; [|reflexivity].
  unfold comparable in Hcmp. unfold gt_cutoff.
  destruct (py_gt (field (JObj d) "timestamp") cutoff); [discriminate|reflexivity].
Qed.

(** C2.  The comprehension keeps, in the order received, exactly the
    entries for which either no source filter is configured, or the
    logger is an allowed source and the cutoff is not set (it is [None] or
    empty, as [not cutoff] tests it) or the timestamp is strictly greater
    than it; with an empty source filter every entry is kept, whatever the
    cutoff.  The entries are objects whose timestamps can be compared with
    the cutoff: on others the comparison raises. *)
Theorem filter_logs_keeps_iff (sources : list string) (cutoff : json)
    (entries : list json) :
  sources = [] \/ forallb (well_typed_log cutoff) entries = true ->
  filter_logs sources cutoff entries
    = inr (filter (spec_keeps sources cutoff) entries)
  /\ (sources = [] -> filter_logs sources cutoff entries = inr entries).
Proof.
  intros Hin.
  assert (Hf : filter_logs sources cutoff entries
               = inr (filter (spec_keeps sources cutoff) entries)).
  { induction entries as [|r rest IH]; [reflexivity|].
    simpl. rewrite keep_log_spec.
    - simpl. rewrite IH; [reflexivity|].
      destruct Hin as [Hs|Hw]; [now left|right].
      simpl in Hw. now apply andb_prop in Hw.
    - destruct Hin as [Hs|Hw]; [now left|right].
      simpl in Hw. now apply andb_prop in Hw. }
  split; [exact Hf|]. intros ->. rewrite Hf. f_equal.
  clear. induction entries as [|r rest IH]; [reflexivity|].
  simpl. now rewrite IH.
Qed.

(** C7.  When the logs are fetched and every kept entry can be rendered,
    the call returns the timestamp of the last kept entry in the order
    received, and the cutoff it was given when nothing is kept. *)
Theorem tailer_returns_last_kept_timestamp (self : AirflowDagRunner)
    (dag_id : string) (dag_run_id task_id cutoff : json) (r : reply)
    (t : list event) (kept : list json) :
  kept_logs self cutoff r = inr kept ->
  forallb renderable kept = true ->
  snd (_print_task_logs self dag_id dag_run_id task_id cutoff r t)
  = inr (match kept with
         | [] => cutoff
         | l :: _ => field (last kept l) "timestamp"
         end).
Proof.
  intros Hk Hr. now rewrite (print_task_logs_ok _ _ _ _ _ _ _ _ Hk Hr).
Qed.

(** C8.  The call prints, after its request, one line per kept entry in
    the order received, [timestamp - task_id: [LEVEL] message]; the
    message is [event: exc_value] when the level lower-cases to "error"
    and [error_detail[0].exc_value] exists and is truthy, and [event]
    otherwise; the lookup of the nested value raises for no entry. *)
Theorem tailer_prints_kept_entries_in_order (self : AirflowDagRunner)
    (dag_id : string) (dag_run_id task_id cutoff : json) (r : reply)
    (t : list event) (kept : list json) :
  kept_logs self cutoff r = inr kept ->
  forallb renderable kept = true ->
  fst (_print_task_logs self dag_id dag_run_id task_id cutoff r t)
  = (t ++ log_request self dag_id dag_run_id task_id
       :: map (fun e => Print (rendered_line task_id e)) kept)%list
  /\ (forall e, error_detail_of e
                = inr (match nested_exc_value e with
                       | Some v => v
                       | None => JNull
                       end)).
Proof.
  intros Hk Hr. split.
  - now rewrite (print_task_logs_ok _ _ _ _ _ _ _ _ Hk Hr).
  - apply error_detail_of_total.
Qed.

Lemma body_trace (self : AirflowDagRunner) (dag_id : string)
    (dag_run_id task_id cutoff : json) (r : reply) (t : list event) :
  exists printed,
    fst (print_task_logs_body self dag_id dag_run_id task_id cutoff r t)
    = (t ++ log_request self dag_id dag_run_id task_id
         :: map (fun e => Print (rendered_line task_id e)) printed)%list.
Proof.
  rewrite body_unfold. cbv zeta.
  destruct (kept_logs self cutoff r) as [e|kept].
  - exists []. reflexivity.
  - exists (printed_of kept).
    pose proof (print_logs_trace task_id kept
                  (t ++ [log_request self dag_id dag_run_id task_id])) as Ht.
    destruct (print_logs task_id kept _) as [t' [e|u]]; simpl in *;
      rewrite Ht, <- app_assoc; reflexivity.
Qed.

(** C10.  When an exception leaves the body of the [try] of
    [_print_task_logs], the lines printed before it stay, the handler adds
    the diagnostic naming the task, the call returns [None], and the
    monitor stores [None] as the cutoff of the task. *)
Theorem tailer_exception_returns_none (self : AirflowDagRunner)
    (dag_id : string) (dag_run_id task_id cutoff : json) (r : reply)
    (t t' : list event) (e : exn) :
  print_task_logs_body self dag_id dag_run_id task_id cutoff r t = (t', inl e) ->
  _print_task_logs self dag_id dag_run_id task_id cutoff r t
  = ((t' ++ [log_diagnostic task_id e])%list, inr JNull)
  /\ (exists printed,
        t' = (t ++ log_request self dag_id dag_run_id task_id
                :: map (fun x => Print (rendered_line task_id x)) printed)%list)
  /\ (forall task task_state st,
        py_get task "task_id" JNull = inr task_id ->
        py_get task "state" JNull = inr task_state ->
        hashable task_id = true ->
        in_list task_id (logged_tasks st) = false ->
        in_list task_state (running_states ++ completed_states)%list = true ->
        dict_get (task_log_cutoffs st) task_id = cutoff ->
        exists st',
          process_task self dag_id dag_run_id task r st t
          = ((t' ++ [log_diagnostic task_id e])%list, inr st')
          /\ dict_get (task_log_cutoffs st') task_id = JNull).
Proof.
  intros Hbody.
  assert (Hcall : _print_task_logs self dag_id dag_run_id task_id cutoff r t
                  = ((t' ++ [log_diagnostic task_id e])%list, inr JNull)).
  { unfold _print_task_logs, try_except. rewrite Hbody. reflexivity. }
  split; [exact Hcall|]. split.
  - destruct (body_trace self dag_id dag_run_id task_id cutoff r t) as [pr Hpr].
    rewrite Hbody in Hpr. now exists pr.
  - intros task task_state st Hid Hs Hhid Hlog Hel Hcut.
    destruct (task_get_ok task task_id task_state Hid Hs Hhid
                (in_eligible_hashable _ Hel)) as (Hok & Hfid & Hfs).
    rewrite (process_task_unfold _ _ _ _ _ _ _ Hok). cbv zeta.
    rewrite Hfid, Hfs, Hlog, Hel, Hcut, Hcall.
    eexists. split; [reflexivity|]. simpl.
    now apply dict_get_set.
Qed.

End Claims.

(** ** Cutoffs and logged tasks *)

Section Claims2.
Context `{PyText}.


(** C6.  A well-formed task that is already in [logged_tasks] is skipped:
    no request, no line, no change.  One that is not is added to the set
    exactly when the state just observed is terminal, and then only after
    the tailer has been called once more for it, its result stored; no
    member of the set is ever removed. *)
Theorem task_logged_iff_terminal_state (self : AirflowDagRunner)
    (dag_id : string) (dag_run_id task task_id task_state : json) (r : reply)
    (st : monitor_state) (t : list event) :
  py_get task "task_id" JNull = inr task_id ->
  py_get task "state" JNull = inr task_state ->
  hashable task_id = true ->
  hashable task_state = true ->
  (in_list task_id (logged_tasks st) = true ->
   process_task self dag_id dag_run_id task r st t = (t, inr st))
  /\ (in_list task_id (logged_tasks st) = false ->
      exists t' st',
        process_task self dag_id dag_run_id task r st t = (t', inr st')
        /\ (in_list task_id (logged_tasks st') = true
            <-> in_list task_state completed_states = true)
        /\ (in_list task_state completed_states = true ->
            logged_tasks st' = (logged_tasks st ++ [task_id])%list
            /\ exists v,
                 _print_task_logs self dag_id dag_run_id task_id
                   (dict_get (task_log_cutoffs st) task_id) r t = (t', inr v)
                 /\ task_log_cutoffs st'
                    = dict_set (task_log_cutoffs st) task_id v)
        /\ (in_list task_state completed_states = false ->
            logged_tasks st' = logged_tasks st)
        /\ (forall x, in_list x (logged_tasks st) = true ->
                      in_list x (logged_tasks st') = true)).
Proof.
  intros Hid Hs Hhid Hhs.
  destruct (task_get_ok task task_id task_state Hid Hs Hhid Hhs)
    as (Hok & Hfid & Hfs).
  rewrite (process_task_unfold _ _ _ _ _ _ _ Hok). cbv zeta.
  rewrite Hfid, Hfs. split; intros Hlog; rewrite Hlog; [reflexivity|].
  assert (Hadd : set_add (logged_tasks st) task_id
                 = (logged_tasks st ++ [task_id])%list).
  { unfold set_add. unfold in_list in Hlog. now rewrite Hlog. }
  assert (Hin : in_list task_id (logged_tasks st ++ [task_id])%list = true).
  { unfold in_list. rewrite existsb_app. simpl.
    rewrite py_eq_refl_hashable; [apply orb_true_r|exact Hhid]. }
  destruct (in_list task_state completed_states) eqn:Hc.
  - rewrite (in_completed_eligible _ Hc).
    destruct (print_task_logs_never_raises self dag_id dag_run_id task_id
                (dict_get (task_log_cutoffs st) task_id) r t) as [v Hv].
    destruct (_print_task_logs _ _ _ _ _ _ _) as [t' res]. simpl in Hv.
    subst res. eexists. eexists. split; [reflexivity|]. cbn [logged_tasks].
    rewrite Hadd. repeat split; auto; try discriminate.
    + exists v. split; reflexivity.
    + intros x Hx. unfold in_list in *. rewrite existsb_app, Hx. reflexivity.
  - destruct (in_list task_state (running_states ++ completed_states)%list).
    + destruct (print_task_logs_never_raises self dag_id dag_run_id task_id
                  (dict_get (task_log_cutoffs st) task_id) r t) as [v Hv].
      destruct (_print_task_logs _ _ _ _ _ _ _) as [t' res]. simpl in Hv.
      subst res. eexists. eexists. split; [reflexivity|]. cbn [logged_tasks].
      repeat split; auto; try discriminate; congruence.
    + eexists. eexists. split; [reflexivity|].
      repeat split; auto; try discriminate; congruence.
Qed.

End Claims2.

(** ** Leaving the loop, and authentication *)

Section Claims3.
Context `{PyText}.


Lemma healthy_tick (self : AirflowDagRunner) (dag_id : string)
    (dag_run_id : json) (interval : Z) (p : poll) (st : monitor_state)
    (t : list event) (s : json) :
  healthy p = true -> run_state_of p = inr s ->
  exists t' st',
    monitor_tick self dag_id dag_run_id interval p st t =
    if in_list s completed_states
    then ((t' ++ [Print ("DAG завершен со статусом: " ++ py_str s)])%list,
          Break Completed)
    else match sleep_refused interval with
         | Some e =>
             ((t' ++ [Print ("Ошибка мониторинга: " ++ str_exn e)])%list,
              Break Aborted)
         | None => ((t' ++ [Sleep interval])%list, Next st')
         end.
Proof.
  unfold healthy. intros Hh Hs. rewrite Hs in Hh.
  destruct (task_list_of p) as [e|tl] eqn:Htl; [discriminate|].
  apply andb_prop in Hh as [Hhash Htasks].
  unfold monitor_tick. rewrite tick_body_unfold. cbv zeta. rewrite Hs, Htl.
  destruct (for_tasks_returns self dag_id dag_run_id tl 0 (logs p) st
              (t ++ [Get (status_url_of self dag_id dag_run_id) [];
                     Get (tasks_url_of self dag_id dag_run_id) []]) Htasks)
    as (t' & st' & Hfor).
  rewrite Hfor, (in_set_hashable _ completed_states Hhash).
  exists t', st'. destruct (in_list s completed_states); [reflexivity|].
  destruct (sleep_refused interval); reflexivity.
Qed.



Lemma get_access_token_raises (url username password : string) (r : reply)
    (t : list event) (e : exn) :
  token_of r = inl e ->
  _get_access_token url username password r t
  = ((t ++ [Post (url ++ "/auth/token")
              (JObj [("username", JStr username); ("password", JStr password)])])%list,
     inl (PyException ("Ошибка аутентификации: " ++ str_exn e))).
Proof.
  unfold token_of, _get_access_token, try_except, io_bind, lift, emit, bind.
  cbv zeta. destruct (fetch_json r) as [x|body].
  - intros Hx. injection Hx as ->. reflexivity.
  - intros ->. reflexivity.
Qed.

(** C9.  When the token request fails (the server cannot be reached, it
    answers with an error status, or its body is not a JSON object), the
    process makes that one request, prints the error and exits with code
    1: no trigger request, no monitoring request. *)
Theorem auth_failure_exits_with_code_1 (a : args) (s : server) (e : exn) :
  token_of (auth s) = inl e ->
  main a s
  = ([Post (rstrip_slash (args_url a) ++ "/auth/token")
        (JObj [("username", JStr (args_user a));
               ("password", JStr (args_password a))]);
      Print ("Ошибка: " ++ "Ошибка аутентификации: " ++ str_exn e)],
     Exited 1).
Proof.
  intros Hfail. unfold main, main_body, __init__, io_bind.
  rewrite (get_access_token_raises _ _ _ _ _ _ Hfail). reflexivity.
Qed.

Lemma token_of_raises_iff (r : reply) :
  (exists e, token_of r = inl e)
  <-> match r with
      | Json (JObj _) => False
      | _ => True
      end.
Proof.
  unfold token_of.
  destruct r as [| | |[| | | | |d]]; simpl;
    try (split; [intros _; exact I | intros _; eexists; reflexivity]).
  split; [intros [e He]; discriminate | intros []].
Qed.

End Claims3.

(** ** The sample runs *)

Section Samples.
#[local] Existing Instance sample_text.

(** The run of the specification: a running pass with one entry, then a
    successful pass with an older and a newer entry. *)
Example sample_run_console :
  printed_lines (fst (main sample_args sample_server))
  = ["DAG Run ID: r1";
     "2024-01-01T00:00:00 - t1: [INFO] started";
     "2024-01-01T00:00:05 - t1: [INFO] finished";
     "DAG завершен со статусом: success"]
  /\ snd (main sample_args sample_server) = Exited 0.
Proof. split; reflexivity. Qed.

Example error_rendering :
  log_line (JStr "t1") entry_boom
  = inr "2024-01-01T00:00:07 - t1: [ERROR] boom: oops"
  /\ log_line (JStr "t1") entry_boom_bare
     = inr "2024-01-01T00:00:07 - t1: [ERROR] boom".
Proof. split; reflexivity. Qed.

Example rendering_needs_timestamp_and_level :
  log_line (JStr "t1") entry_no_level = inl AttributeError
  /\ log_line (JStr "t1") (JObj [("level", JStr "info")]) = inl KeyError
  /\ log_line (JStr "t1")
       (JObj [("timestamp", JStr "2024"); ("level", JNum 20)])
     = inl AttributeError.
Proof. repeat split; reflexivity. Qed.

Example source_filter_examples :
  filter_logs ["task"] JNull [entry_task_t1; entry_root_t2] = inr [entry_task_t1]
  /\ filter_logs [] (JStr "t9") [entry_task_t1; entry_root_t2]
     = inr [entry_task_t1; entry_root_t2].
Proof. split; reflexivity. Qed.

Example default_log_sources : list_of_str "root,task" = ["root"; "task"].
Proof. reflexivity. Qed.

(** C1.  The tailer is called with the cutoff "2024-01-01T00:00:00" and
    the server cannot be reached: the failure is caught and the
    diagnostic names the task, but the call returns [None], not the cutoff
    it was given; the monitor goes on, and at the next pass the entry
    already printed is printed again, which it is not when the log request
    of the second pass succeeds. *)
Lemma failed_log_fetch_returns_none_not_cutoff :
  _print_task_logs sample_runner "etl" (JStr "r1") (JStr "t1")
    (JStr "2024-01-01T00:00:00") Unreachable []
  = ([log_request sample_runner "etl" (JStr "r1") (JStr "t1");
      Print "Не удалось получить логи для задачи t1: ConnectionError"],
     inr JNull)
  /\ (let run := monitor_loop sample_runner "etl" (JStr "r1") 5
                   [poll_running_0; poll_running_unreachable_logs; poll_running_0]
                   empty_state [] in
      printed_lines (fst run)
      = ["2024-01-01T00:00:00 - t1: [INFO] started";
         "Не удалось получить логи для задачи t1: ConnectionError";
         "2024-01-01T00:00:00 - t1: [INFO] started"]
      /\ snd run = None)
  /\ printed_lines
       (fst (monitor_loop sample_runner "etl" (JStr "r1") 5
               [poll_running_0; poll_running_0; poll_running_0] empty_state []))
     = ["2024-01-01T00:00:00 - t1: [INFO] started"].
Proof. repeat split; reflexivity. Qed.


Lemma filter_logs_keeps_iff_witness :
  (["task"] = []
   \/ forallb (well_typed_log (JStr "2024-01-01T00:00:00"))
        [entry_0; entry_root_t2; entry_5] = true)
  /\ filter_logs ["task"] (JStr "2024-01-01T00:00:00")
       [entry_0; entry_root_t2; entry_5]
     = inr [entry_5].
Proof.
  split; [right; reflexivity|].
  exact (proj1 (filter_logs_keeps_iff ["task"] (JStr "2024-01-01T00:00:00")
                  [entry_0; entry_root_t2; entry_5]
                  (or_intror eq_refl))).
Defined.

Lemma tailer_returns_last_kept_timestamp_witness :
  kept_logs sample_runner (JStr "2024-01-01T00:00:00")
    (logs_reply [entry_0; entry_boom; entry_5]) = inr [entry_boom; entry_5]
  /\ forallb renderable [entry_boom; entry_5] = true
  /\ snd (_print_task_logs sample_runner "etl" (JStr "r1") (JStr "t1")
            (JStr "2024-01-01T00:00:00")
            (logs_reply [entry_0; entry_boom; entry_5]) [])
     = inr (JStr "2024-01-01T00:00:05").
Proof.
  split; [reflexivity|]. split; [reflexivity|].
  exact (tailer_returns_last_kept_timestamp sample_runner "etl" (JStr "r1")
           (JStr "t1") (JStr "2024-01-01T00:00:00")
           (logs_reply [entry_0; entry_boom; entry_5]) []
           [entry_boom; entry_5] eq_refl eq_refl).
Defined.

Lemma tailer_prints_kept_entries_in_order_witness :
  kept_logs sample_runner JNull (logs_reply [entry_0; entry_boom]) 
  = inr [entry_0; entry_boom]
  /\ forallb renderable [entry_0; entry_boom] = true
  /\ fst (_print_task_logs sample_runner "etl" (JStr "r1") (JStr "t1") JNull
            (logs_reply [entry_0; entry_boom]) [])
     = [log_request sample_runner "etl" (JStr "r1") (JStr "t1");
        Print "2024-01-01T00:00:00 - t1: [INFO] started";
        Print "2024-01-01T00:00:07 - t1: [ERROR] boom: oops"].
Proof.
  split; [reflexivity|]. split; [reflexivity|].
  exact (proj1 (tailer_prints_kept_entries_in_order sample_runner "etl"
                  (JStr "r1") (JStr "t1") JNull
                  (logs_reply [entry_0; entry_boom]) []
                  [entry_0; entry_boom] eq_refl eq_refl)).
Defined.

Lemma tailer_exception_returns_none_witness :
  let r := logs_reply [entry_0; entry_no_level; entry_5] in
  let t' := [log_request sample_runner "etl" (JStr "r1") (JStr "t1");
             Print "2024-01-01T00:00:00 - t1: [INFO] started"] in
  print_task_logs_body sample_runner "etl" (JStr "r1") (JStr "t1") JNull r []
  = (t', inl AttributeError)
  /\ _print_task_logs sample_runner "etl" (JStr "r1") (JStr "t1") JNull r []
     = ((t' ++ [Print "Не удалось получить логи для задачи t1: AttributeError"])%list,
        inr JNull).
Proof.
  split; [reflexivity|].
  exact (proj1 (tailer_exception_returns_none sample_runner "etl" (JStr "r1")
                  (JStr "t1") JNull
                  (logs_reply [entry_0; entry_no_level; entry_5]) [] _
                  AttributeError eq_refl)).
Defined.



Lemma task_logged_iff_terminal_state_witness :
  (py_get (task_instance "t1" "success") "task_id" JNull = inr (JStr "t1")
   /\ py_get (task_instance "t1" "success") "state" JNull = inr (JStr "success")
   /\ hashable (JStr "t1") = true
   /\ hashable (JStr "success") = true)
  /\ exists t' st',
       process_task sample_runner "etl" (JStr "r1")
         (task_instance "t1" "success") (logs_reply [entry_0]) empty_state []
       = (t', inr st')
       /\ logged_tasks st' = [JStr "t1"].
Proof.
  split; [repeat split; reflexivity|].
  destruct (proj2 (task_logged_iff_terminal_state sample_runner "etl"
                     (JStr "r1") (task_instance "t1" "success") (JStr "t1")
                     (JStr "success") (logs_reply [entry_0]) empty_state []
                     eq_refl eq_refl eq_refl eq_refl) eq_refl)
    as (t' & st' & Hp & _ & Hadd & _).
  exists t', st'. split; [exact Hp|]. exact (proj1 (Hadd eq_refl)).
Defined.

Lemma auth_failure_exits_with_code_1_witness :
  token_of (auth rejecting_server) = inl HTTPError
  /\ main sample_args rejecting_server
     = ([Post "http://localhost:8080/auth/token"
           (JObj [("username", JStr "admin"); ("password", JStr "secret")]);
         Print "Ошибка: Ошибка аутентификации: HTTPError"],
        Exited 1).
Proof.
  split; [reflexivity|].
  exact (auth_failure_exits_with_code_1 sample_args rejecting_server HTTPError
           eq_refl).
Defined.

End Samples.

(** ** Command-line helpers *)

Section Helpers.

Lemma join_comma_cons (c : ascii) (x : string) (l : list string) :
  join_comma (String c x :: l) = String c (join_comma (x :: l)).
Proof. simpl. destruct l; reflexivity. Qed.

Lemma list_of_str_not_nil (s : string) : list_of_str s <> [].
Proof.
  destruct s as [|c s]; simpl; [discriminate|].
  destruct (c =? ",")%char; [discriminate|].
  destruct (list_of_str s); discriminate.
Qed.

Lemma list_of_str_comma (s : string) :
  list_of_str (String "," s) = "" :: list_of_str s.
Proof. reflexivity. Qed.

Lemma list_of_str_other (c : ascii) (s : string) :
  (c =? ",")%char = false ->
  list_of_str (String c s)
  = match list_of_str s with
    | x :: l => String c x :: l
    | [] => [String c EmptyString]
    end.
Proof. intros Hc. simpl. now rewrite Hc. Qed.

(** X1.  Splitting on commas loses nothing: joining the pieces with
    commas gives the argument back; there is always at least one piece
    (the empty argument gives one empty piece, not an empty list), and no
    piece contains a comma. *)
Theorem list_of_str_join (arg : string) :
  join_comma (list_of_str arg) = arg
  /\ list_of_str arg <> []
  /\ forallb (fun piece => negb (has_comma piece)) (list_of_str arg) = true.
Proof.
  split; [|split; [apply list_of_str_not_nil|]].
  - induction arg as [|c s IH]; [reflexivity|]. simpl.
    destruct (c =? ",")%char eqn:Hc.
    + apply Ascii.eqb_eq in Hc. subst c.
      pose proof (list_of_str_not_nil s) as Hne.
      destruct (list_of_str s) as [|x l] eqn:Hl; [congruence|].
      change (join_comma ("" :: x :: l)) with ("" ++ "," ++ join_comma (x :: l)).
      now rewrite IH.
    + pose proof (list_of_str_not_nil s) as Hne.
      destruct (list_of_str s) as [|x l] eqn:Hl; [congruence|].
      rewrite join_comma_cons. now rewrite IH.
  - induction arg as [|c s IH]; [reflexivity|]. simpl.
    destruct (c =? ",")%char eqn:Hc; [exact IH|].
    destruct (list_of_str s) as [|x l]; simpl in *; rewrite Hc; [reflexivity|].
    exact IH.
Qed.

(** X2.  The converse round trip: a non-empty list of pieces without
    commas, joined with commas and split again, gives the list back. *)
Theorem list_of_str_of_join (pieces : list string) :
  pieces <> [] ->
  forallb (fun piece => negb (has_comma piece)) pieces = true ->
  list_of_str (join_comma pieces) = pieces.
Proof.
  induction pieces as [|x rest IH]; [congruence|]. intros _ Hall.
  simpl in Hall. apply andb_prop in Hall as [Hx Hrest].
  destruct rest as [|y rest'].
  - clear IH Hrest. simpl. induction x as [|c x IHx]; [reflexivity|].
    simpl in Hx. apply negb_true_iff in Hx. apply orb_false_elim in Hx as [Hc Hx].
    simpl. rewrite Hc. rewrite IHx; [reflexivity|now apply negb_true_iff].
  - specialize (IH ltac:(discriminate) Hrest).
    change (join_comma (x :: y :: rest'))
      with (x ++ "," ++ join_comma (y :: rest')).
    clear Hrest. induction x as [|c x IHx].
    + change ("" ++ "," ++ join_comma (y :: rest'))
        with (String "," (join_comma (y :: rest'))).
      rewrite list_of_str_comma. now rewrite IH.
    + simpl in Hx. apply negb_true_iff in Hx.
      apply orb_false_elim in Hx as [Hc Hx].
      change (String c x ++ "," ++ join_comma (y :: rest'))
        with (String c (x ++ "," ++ join_comma (y :: rest'))).
      rewrite (list_of_str_other _ _ Hc). rewrite IHx; [reflexivity|].
      now apply negb_true_iff.
Qed.

Lemma rstrip_slash_empty_iff (s : string) :
  rstrip_slash s = "" -> exists n, s = slashes n.
Proof.
  induction s as [|c s IH]; [now exists O|]. simpl.
  destruct (rstrip_slash s) eqn:Hr; [|discriminate].
  destruct (c =? "/")%char eqn:Hc; [|discriminate]. intros _.
  apply Ascii.eqb_eq in Hc. subst c. destruct (IH eq_refl) as [n ->].
  now exists (S n).
Qed.

(** X3.  [rstrip('/')] removes trailing slashes and nothing else: the
    argument is the result followed by slashes only, and the result does
    not end with a slash. *)
Theorem rstrip_slash_strips_trailing_slashes (s : string) :
  (exists n, s = rstrip_slash s ++ slashes n)
  /\ ends_with_slash (rstrip_slash s) = false.
Proof.
  split.
  - induction s as [|c s [n IH]]; [now exists O|]. simpl.
    destruct (rstrip_slash s) as [|c' r] eqn:Hr.
    + destruct (rstrip_slash_empty_iff s Hr) as [m ->].
      destruct (c =? "/")%char eqn:Hc.
      * apply Ascii.eqb_eq in Hc. subst c. now exists (S m).
      * now exists m.
    + exists n. simpl. f_equal. exact IH.
  - induction s as [|c s IH]; [reflexivity|]. simpl.
    destruct (rstrip_slash s) as [|c' r] eqn:Hr.
    + destruct (c =? "/")%char eqn:Hc; [reflexivity|]. simpl. exact Hc.
    + exact IH.
Qed.

End Helpers.

(** ** The process as a whole *)

Section Process.
Context `{PyText}.

Lemma get_access_token_unfold (url username password : string) (r : reply)
    (t : list event) :
  _get_access_token url username password r t
  = ((t ++ [Post (url ++ "/auth/token")
              (JObj [("username", JStr username); ("password", JStr password)])])%list,
     match token_of r with
     | inl e => inl (PyException ("Ошибка аутентификации: " ++ str_exn e))
     | inr token => inr token
     end).
Proof.
  unfold token_of, _get_access_token, try_except, io_bind, lift, emit, bind.
  cbv zeta. destruct (fetch_json r) as [x|body]; [reflexivity|].
  destruct (py_get body "access_token" JNull); reflexivity.
Qed.

Lemma trigger_dag_unfold (self : AirflowDagRunner) (dag_id : string)
    (conf : json) (r : reply) (t : list event) :
  trigger_dag self dag_id conf r t
  = ((t ++ [Post (airflow_url self ++ "/" ++ _API_DAGS_URI ++ "/" ++ dag_id
                    ++ "/dagRuns")
              (JObj [("logical_date", JNull);
                     ("conf", if py_truthy conf then conf else JObj [])])])%list,
     match run_id_of r with
     | inl e => inl (PyException ("Ошибка запуска DAG: " ++ str_exn e))
     | inr run_id => inr run_id
     end).
Proof.
  unfold run_id_of, trigger_dag, try_except, io_bind, lift, emit, bind.
  cbv zeta. destruct (fetch_json r) as [x|body]; [reflexivity|].
  destruct (py_get body "dag_run_id" JNull); reflexivity.
Qed.

(** The requests of authentication and trigger, as [__main__] makes them. *)
Lemma main_unfold (a : args) (s : server) :
  let auth_post :=
    Post (rstrip_slash (args_url a) ++ "/auth/token")
      (JObj [("username", JStr (args_user a));
             ("password", JStr (args_password a))]) in
  let trigger_post :=
    Post (rstrip_slash (args_url a) ++ "/" ++ _API_DAGS_URI ++ "/" ++ args_dag a
            ++ "/dagRuns")
      (JObj [("logical_date", JNull); ("conf", JObj [])]) in
  main a s =
  match token_of (auth s) with
  | inl e =>
      ([auth_post;
        Print ("Ошибка: " ++ "Ошибка аутентификации: " ++ str_exn e)],
       Exited 1)
  | inr token =>
      match run_id_of (trigger s) with
      | inl e =>
          ([auth_post; trigger_post;
            Print ("Ошибка: " ++ "Ошибка запуска DAG: " ++ str_exn e)],
           Exited 1)
      | inr run_id =>
          let runner := {| airflow_url := rstrip_slash (args_url a);
                           log_sources := args_log_sources a;
                           access_token := token |} in
          let run := monitor_loop runner (args_dag a) run_id (args_interval a)
                       (polls s)
                       {| logged_tasks := []; task_log_cutoffs := [] |}
                       [auth_post; trigger_post;
                        Print ("DAG Run ID: " ++ py_str run_id)] in
          (fst run, exit_of (snd run))
      end
  end.
Proof.
  cbv zeta. unfold main, main_body, __init__, io_bind.
  rewrite get_access_token_unfold.
  destruct (token_of (auth s)) as [e|token]; [reflexivity|].
  unfold io_ret, ret. rewrite trigger_dag_unfold.
  destruct (run_id_of (trigger s)) as [e|run_id]; [reflexivity|].
  unfold emit, monitor_dag, ret. simpl.
  destruct (monitor_loop _ _ _ _ _ _ _) as [t' [how|]]; reflexivity.
Qed.

(** X4.  When authentication succeeds and the trigger request fails,
    the process has made the two requests, prints the wrapped error and
    exits with code 1 without any monitoring request. *)
Theorem trigger_failure_exits_with_code_1 (a : args) (s : server)
    (token : json) (e : exn) :
  token_of (auth s) = inr token ->
  run_id_of (trigger s) = inl e ->
  main a s
  = ([Post (rstrip_slash (args_url a) ++ "/auth/token")
        (JObj [("username", JStr (args_user a));
               ("password", JStr (args_password a))]);
      Post (rstrip_slash (args_url a) ++ "/" ++ _API_DAGS_URI ++ "/"
              ++ args_dag a ++ "/dagRuns")
        (JObj [("logical_date", JNull); ("conf", JObj [])]);
      Print ("Ошибка: " ++ "Ошибка запуска DAG: " ++ str_exn e)],
     Exited 1).
Proof.
  intros Htok Hrun. rewrite main_unfold. cbv zeta. now rewrite Htok, Hrun.
Qed.


(** X6.  Answers that are JSON objects without the expected key are not
    failures: with no [access_token] in the token reply and no
    [dag_run_id] in the trigger reply the process goes on with [None] for
    both, prints "DAG Run ID: None" and monitors the run named None. *)
Theorem missing_token_and_run_id_are_none (a : args) (s : server)
    (token_body run_body : list (string * json)) :
  auth s = Json (JObj token_body) ->
  lookup "access_token" token_body = None ->
  trigger s = Json (JObj run_body) ->
  lookup "dag_run_id" run_body = None ->
  let runner := {| airflow_url := rstrip_slash (args_url a);
                   log_sources := args_log_sources a;
                   access_token := JNull |} in
  let run :=
    monitor_loop runner (args_dag a) JNull (args_interval a) (polls s)
      {| logged_tasks := []; task_log_cutoffs := [] |}
      [Post (rstrip_slash (args_url a) ++ "/auth/token")
         (JObj [("username", JStr (args_user a));
                ("password", JStr (args_password a))]);
       Post (rstrip_slash (args_url a) ++ "/" ++ _API_DAGS_URI ++ "/"
               ++ args_dag a ++ "/dagRuns")
         (JObj [("logical_date", JNull); ("conf", JObj [])]);
       Print "DAG Run ID: None"] in
  main a s = (fst run, exit_of (snd run))
  /\ status_url_of runner (args_dag a) JNull
     = rstrip_slash (args_url a) ++ "/api/v2/dags/" ++ args_dag a
         ++ "/dagRuns/None".
Proof.
  intros Hauth Htok Htrig Hrun. cbv zeta. split.
  - rewrite main_unfold. cbv zeta. unfold token_of, run_id_of.
    rewrite Hauth, Htrig. simpl. rewrite Htok, Hrun. reflexivity.
  - reflexivity.
Qed.

End Process.

(** ** More on the log tailer *)

Section TailerMore.
Context `{PyText}.

(** X7.  What decides whether an entry is rendered: an entry that is not
    a dict raises [TypeError], one without a [timestamp] key [KeyError],
    one whose [level] is absent or not a string [AttributeError]; every
    other entry gives its line, whatever its [event], [logger] and
    [error_detail] are, present or not. *)
Theorem log_line_outcome (task_id e : json) :
  log_line task_id e =
  match e with
  | JObj d =>
      match lookup "timestamp" d with
      | None => inl KeyError
      | Some _ =>
          match lookup "level" d with
          | Some (JStr _) => inr (rendered_line task_id e)
          | _ => inl AttributeError
          end
      end
  | _ => inl TypeError
  end.
Proof.
  destruct e as [| | | | |d]; try reflexivity.
  destruct (lookup "timestamp" d) as [ts|] eqn:Hts.
  - destruct (lookup "level" d) as [lv|] eqn:Hlv.
    + destruct lv as [| | |lv| |];
        try (unfold log_line; simpl; rewrite Hts, Hlv; simpl;
             rewrite error_detail_of_total; reflexivity).
      apply log_line_renderable. unfold renderable. now rewrite Hts, Hlv.
    + unfold log_line. simpl. rewrite Hts, Hlv. simpl.
      rewrite error_detail_of_total. reflexivity.
  - unfold log_line. simpl. now rewrite Hts.
Qed.

(** X8.  When a kept entry cannot be rendered, the call prints the lines
    of the kept entries before the first such entry and of none after it,
    then the diagnostic, and returns [None]. *)
Theorem unrenderable_entry_cuts_output (self : AirflowDagRunner)
    (dag_id : string) (dag_run_id task_id cutoff : json) (r : reply)
    (t : list event) (kept : list json) :
  kept_logs self cutoff r = inr kept ->
  forallb renderable kept = false ->
  exists e,
    _print_task_logs self dag_id dag_run_id task_id cutoff r t
    = ((t ++ log_request self dag_id dag_run_id task_id
          :: map (fun x => Print (rendered_line task_id x)) (printed_of kept)
          ++ [log_diagnostic task_id e])%list,
       inr JNull).
Proof.
  intros Hk Hr. unfold _print_task_logs, try_except. rewrite body_unfold.
  cbv zeta. rewrite Hk.
  pose proof (print_logs_trace task_id kept
                (t ++ [log_request self dag_id dag_run_id task_id])) as Ht.
  destruct (print_logs_raises task_id kept
              (t ++ [log_request self dag_id dag_run_id task_id]) Hr) as [e He].
  destruct (print_logs task_id kept _) as [t' res]. simpl in Ht, He. subst.
  exists e. unfold emit, io_bind, io_ret, log_diagnostic. simpl.
  rewrite <- !app_assoc. reflexivity.
Qed.

Lemma filter_logs_no_sources (cutoff : json) (entries : list json) :
  filter_logs [] cutoff entries = inr entries.
Proof.
  induction entries as [|r rest IH]; [reflexivity|].
  cbn [filter_logs keep_log bind ret]. rewrite IH. reflexivity.
Qed.

Lemma default_content_chars :
  exists c rest, py_iter (JStr "Логи отсутствуют") = inr (JStr c :: rest).
Proof. eexists. eexists. reflexivity. Qed.

(** X9.  A reply without [content] is reported as a failure: the default
    text is iterated character by character, nothing of it is printed, the
    call prints the diagnostic only and returns [None]. *)
Theorem missing_content_is_a_failure (self : AirflowDagRunner)
    (dag_id : string) (dag_run_id task_id cutoff : json) (r : reply)
    (t : list event) (body : list (string * json)) :
  fetch_json r = inr (JObj body) ->
  lookup "content" body = None ->
  _print_task_logs self dag_id dag_run_id task_id cutoff r t
  = ((t ++ [log_request self dag_id dag_run_id task_id;
            log_diagnostic task_id
              (match log_sources self with
               | [] => TypeError
               | _ => AttributeError
               end)])%list,
     inr JNull).
Proof.
  intros Hf Hc. unfold _print_task_logs, try_except. rewrite body_unfold.
  cbv zeta. unfold kept_logs. rewrite Hf. cbn [bind py_get]. rewrite Hc.
  cbn [bind ret]. destruct default_content_chars as (c & rest & ->).
  cbn [bind].
  destruct (log_sources self) as [|s0 srcs].
  - rewrite filter_logs_no_sources. cbn [print_logs].
    unfold io_bind, lift, emit, io_ret, log_diagnostic.
    cbn [log_line getitem_key bind raise].
    rewrite <- app_assoc. reflexivity.
  - cbn [filter_logs keep_log py_get bind raise].
    unfold io_bind, lift, emit, io_ret, log_diagnostic.
    rewrite <- app_assoc. reflexivity.
Qed.

Lemma ascii_compare_lt_trans (a b c : ascii) :
  Ascii.compare a b = Lt -> Ascii.compare b c = Lt -> Ascii.compare a c = Lt.
Proof.
  unfold Ascii.compare. rewrite !N.compare_lt_iff. apply N.lt_trans.
Qed.

Lemma string_compare_lt_trans (a b c : string) :
  String.compare a b = Lt -> String.compare b c = Lt -> String.compare a c = Lt.
Proof.
  revert b c. induction a as [|x a IH]; intros [|y b] [|z c]; simpl;
    try discriminate; try reflexivity.
  destruct (Ascii.compare x y) eqn:Hxy; try discriminate.
  - apply Ascii.compare_eq_iff in Hxy. subst y.
    destruct (Ascii.compare x z); try discriminate; [apply IH|reflexivity].
  - intros _. destruct (Ascii.compare y z) eqn:Hyz; try discriminate.
    + apply Ascii.compare_eq_iff in Hyz. subst z. now rewrite Hxy.
    + intros _. now rewrite (ascii_compare_lt_trans _ _ _ Hxy Hyz).
Qed.

Lemma string_compare_refl (a : string) : String.compare a a = Eq.
Proof.
  induction a as [|x a IH]; [reflexivity|]. simpl.
  unfold Ascii.compare. now rewrite N.compare_refl.
Qed.

Lemma str_gt_le_lt (a b c : string) :
  str_gt a c = false -> str_gt b c = true -> str_gt a b = false.
Proof.
  unfold str_gt. intros Hac Hbc.
  assert (Hcb : String.compare c b = Lt).
  { rewrite String.compare_antisym. destruct (String.compare b c);
      try discriminate. reflexivity. }
  destruct (String.compare a c) eqn:Hc; try discriminate.
  - apply String.compare_eq_iff in Hc. subst c. now rewrite Hcb.
  - now rewrite (string_compare_lt_trans _ _ _ Hc Hcb).
Qed.

End TailerMore.

(** ** Tailing the same log again *)

Section Again.
Context `{PyText}.

Lemma keep_log_stamped (s0 : string) (srcs : list string) (cutoff e : json) :
  stamped e = true ->
  keep_log (s0 :: srcs) cutoff e
  = if in_strs (field e "logger") (s0 :: srcs)
    then if negb (py_truthy cutoff) then inr true
         else py_gt (field e "timestamp") cutoff
    else inr false.
Proof.
  unfold stamped. destruct e as [| | | | |d]; try discriminate. intros _.
  unfold keep_log. cbn [py_get bind ret].
  change (match lookup "logger" d with Some x => x | None => JNull end)
    with (field (JObj d) "logger").
  destruct (in_strs (field (JObj d) "logger") (s0 :: srcs)); [|reflexivity].
  destruct (negb (py_truthy cutoff)); reflexivity.
Qed.

Lemma stamped_timestamp (e : json) :
  stamped e = true ->
  exists s, field e "timestamp" = JStr s /\ py_truthy (JStr s) = true.
Proof.
  unfold stamped. destruct e as [| | | | |d]; try discriminate.
  destruct (field (JObj d) "timestamp") as [| | |s| |]; try discriminate.
  intros Hs. exists s. split; [reflexivity|exact Hs].
Qed.

Lemma filter_logs_cons (sources : list string) (cutoff r : json)
    (rest kept : list json) :
  filter_logs sources cutoff (r :: rest) = inr kept ->
  exists b kept',
    keep_log sources cutoff r = inr b
    /\ filter_logs sources cutoff rest = inr kept'
    /\ kept = if b then r :: kept' else kept'.
Proof.
  cbn [filter_logs]. destruct (keep_log sources cutoff r) as [e|b];
    [discriminate|]. cbn [bind].
  destruct (filter_logs sources cutoff rest) as [e|kept']; [discriminate|].
  cbn [bind ret]. intros Hk. injection Hk as <-. now exists b, kept'.
Qed.

Lemma filter_logs_In (sources : list string) (cutoff : json)
    (entries kept : list json) (x : json) :
  filter_logs sources cutoff entries = inr kept -> In x kept -> In x entries.
Proof.
  revert kept. induction entries as [|r rest IH]; intros kept Hf Hx.
  - injection Hf as <-. exact Hx.
  - destruct (filter_logs_cons _ _ _ _ _ Hf) as (b & kept' & _ & Hrest & ->).
    destruct b; [destruct Hx as [<-|Hx]|]; [now left| |];
      right; now apply (IH kept').
Qed.

Lemma filter_logs_nil_inv (sources : list string) (cutoff : json)
    (entries : list json) (e : json) :
  filter_logs sources cutoff entries = inr [] -> In e entries ->
  keep_log sources cutoff e = inr false.
Proof.
  induction entries as [|r rest IH]; intros Hf He; [destruct He|].
  destruct (filter_logs_cons _ _ _ _ _ Hf) as (b & kept' & Hb & Hrest & Hk).
  destruct b; [discriminate|]. subst kept'.
  destruct He as [<-|He]; [exact Hb|now apply IH].
Qed.

Lemma filter_logs_all_false (sources : list string) (cutoff : json)
    (entries : list json) :
  (forall e, In e entries -> keep_log sources cutoff e = inr false) ->
  filter_logs sources cutoff entries = inr [].
Proof.
  induction entries as [|r rest IH]; intros Hall; [reflexivity|].
  cbn [filter_logs]. rewrite (Hall r (or_introl eq_refl)). cbn [bind].
  rewrite IH; [reflexivity|]. intros e He. apply Hall. now right.
Qed.

Lemma last_In (A : Type) (l : list A) (d : A) : l <> [] -> In (last l d) l.
Proof.
  induction l as [|a l IH]; [congruence|]. intros _.
  destruct l as [|b l]; [now left|]. right. apply IH. discriminate.
Qed.

Lemma last_cons_cons (A : Type) (a b : A) (l : list A) (d : A) :
  last (a :: b :: l) d = last (b :: l) d.
Proof. reflexivity. Qed.

(** With sorted, stamped entries, no entry passes the filter again once
    the cutoff is the timestamp of the last entry kept. *)
Lemma nothing_above_last_kept (s0 : string) (srcs : list string)
    (cutoff : json) (entries : list json) :
  forallb stamped entries = true ->
  StronglySorted timestamp_le entries ->
  forall kept d e,
    filter_logs (s0 :: srcs) cutoff entries = inr kept ->
    kept <> [] -> In e entries ->
    keep_log (s0 :: srcs) (field (last kept d) "timestamp") e = inr false.
Proof.
  induction entries as [|e0 rest IH]; intros Hst Hsorted kept d e Hf Hne He;
    [destruct He|].
  cbn [forallb] in Hst. apply andb_prop in Hst as [Hst0 Hst].
  apply StronglySorted_inv in Hsorted as [Hsorted Hle0].
  destruct (filter_logs_cons _ _ _ _ _ Hf) as (b & kept' & Hb & Hrest & Hk).
  assert (Hstamped : forall x, In x (e0 :: rest) -> stamped x = true).
  { intros x [<-|Hx]; [exact Hst0|].
    now apply (proj1 (forallb_forall stamped rest) Hst). }
  rewrite (keep_log_stamped _ _ _ _ (Hstamped e He)).
  destruct (in_strs (field e "logger") (s0 :: srcs)) eqn:Hallowed;
    [|reflexivity].
  destruct kept' as [|k kept''].
  - (* nothing kept after [e0]: [e0] is the last kept entry *)
    destruct b; [|congruence]. subst kept. cbn [last].
    destruct (stamped_timestamp e0 Hst0) as (s0' & Hts0 & Htr0).
    rewrite Hts0, Htr0. cbn [negb].
    destruct He as [<-|He].
    + rewrite Hts0. cbn [py_gt ret]. unfold str_gt.
      now rewrite string_compare_refl.
    + pose proof (filter_logs_nil_inv _ _ _ e Hrest He) as Hnot.
      rewrite (keep_log_stamped _ _ _ _ (Hstamped e (or_intror He))),
        Hallowed in Hnot.
      rewrite (keep_log_stamped _ _ _ _ Hst0) in Hb.
      destruct (in_strs (field e0 "logger") (s0 :: srcs)); [|discriminate].
      destruct (negb (py_truthy cutoff)); [discriminate|].
      destruct (stamped_timestamp e (Hstamped e (or_intror He)))
        as (se & Htse & _).
      rewrite Htse in *. rewrite Hts0 in Hb.
      destruct cutoff as [| | |sc| |]; try discriminate.
      cbn [py_gt ret] in *. injection Hnot as Hnot. injection Hb as Hb.
      now rewrite (str_gt_le_lt _ _ _ Hnot Hb).
  - (* the last kept entry is in [rest] *)
    assert (Hlast : last kept d = last (k :: kept'') d).
    { subst kept. destruct b; reflexivity. }
    rewrite Hlast.
    destruct He as [<-|He].
    + assert (Hin : In (last (k :: kept'') d) rest).
      { apply (filter_logs_In _ _ _ _ _ Hrest). apply last_In. discriminate. }
      destruct (stamped_timestamp _ (Hstamped _ (or_intror Hin)))
        as (sl & Htsl & Htrl).
      rewrite Htsl, Htrl. cbn [negb]. rewrite <- Htsl.
      exact (proj1 (Forall_forall _ _) Hle0 _ Hin).
    + specialize (IH Hst Hsorted (k :: kept'') d e Hrest ltac:(discriminate) He).
      rewrite (keep_log_stamped _ _ _ _ (Hstamped e (or_intror He))),
        Hallowed in IH.
      exact IH.
Qed.

Lemma kept_logs_again_nil (self : AirflowDagRunner) (cutoff : json)
    (r : reply) (body : json) (entries kept : list json) :
  log_sources self <> [] ->
  fetch_json r = inr body ->
  py_get body "content" (JStr "Логи отсутствуют") = inr (JList entries) ->
  forallb stamped entries = true ->
  StronglySorted timestamp_le entries ->
  filter_logs (log_sources self) cutoff entries = inr kept ->
  kept_logs self cutoff r = inr kept
  /\ kept_logs self (new_cutoff cutoff kept) r = inr [].
Proof.
  intros Hsrc Hf Hc Hst Hsorted Hk. unfold kept_logs. rewrite Hf. cbn [bind].
  rewrite Hc. cbn [bind py_iter ret]. split; [exact Hk|].
  destruct kept as [|l0 kept0]; [exact Hk|]. unfold new_cutoff.
  destruct (log_sources self) as [|s0 srcs]; [congruence|].
  apply filter_logs_all_false. intros e He.
  exact (nothing_above_last_kept s0 srcs cutoff entries Hst Hsorted
           (l0 :: kept0) l0 e Hk ltac:(discriminate) He).
Qed.

(** X10.  Tailing is idempotent on a log in timestamp order.  With a
    source filter configured, on entries that are dicts with non-empty
    string timestamps listed in non-decreasing order, a call made with the
    cutoff that the filter of an earlier call over the same entries leads
    to keeps nothing: it prints no line and returns that cutoff. *)
Theorem tailing_again_prints_nothing (self : AirflowDagRunner)
    (dag_id : string) (dag_run_id task_id cutoff : json) (r : reply)
    (t : list event) (body : json) (entries kept : list json) :
  log_sources self <> [] ->
  fetch_json r = inr body ->
  py_get body "content" (JStr "Логи отсутствуют") = inr (JList entries) ->
  forallb stamped entries = true ->
  StronglySorted timestamp_le entries ->
  filter_logs (log_sources self) cutoff entries = inr kept ->
  _print_task_logs self dag_id dag_run_id task_id (new_cutoff cutoff kept) r t
  = ((t ++ [log_request self dag_id dag_run_id task_id])%list,
     inr (new_cutoff cutoff kept)).
Proof.
  intros Hsrc Hf Hc Hst Hsorted Hk.
  destruct (kept_logs_again_nil self cutoff r body entries kept
              Hsrc Hf Hc Hst Hsorted Hk) as [_ Hnone].
  rewrite (print_task_logs_ok self dag_id dag_run_id task_id _ r t [] Hnone
             eq_refl).
  reflexivity.
Qed.

Lemma dict_set_twice (d : list (json * json)) (k v : json) :
  hashable k = true -> dict_set (dict_set d k v) k v = dict_set d k v.
Proof.
  intros Hk. induction d as [|[ki vi] d IH]; simpl.
  - now rewrite (py_eq_refl_hashable _ Hk).
  - destruct (py_eq k ki) eqn:Hki; simpl; rewrite Hki; [reflexivity|].
    now rewrite IH.
Qed.

(** X16.  Polling a running task twice over an unchanged log in
    timestamp order prints each entry once: with a source filter
    configured, after a pass that printed the kept entries of a task that
    stays running, a second pass that receives the same entries makes its
    log request, prints nothing and leaves the state of the monitor as it
    was. *)
Theorem repolling_an_unchanged_log_prints_nothing (self : AirflowDagRunner)
    (dag_id : string) (dag_run_id task task_id : json) (r : reply)
    (st : monitor_state) (t : list event) (body : json)
    (entries kept : list json) :
  py_get task "task_id" JNull = inr task_id ->
  py_get task "state" JNull = inr (JStr "running") ->
  hashable task_id = true ->
  in_list task_id (logged_tasks st) = false ->
  log_sources self <> [] ->
  fetch_json r = inr body ->
  py_get body "content" (JStr "Логи отсутствуют") = inr (JList entries) ->
  forallb stamped entries = true ->
  StronglySorted timestamp_le entries ->
  filter_logs (log_sources self)
    (dict_get (task_log_cutoffs st) task_id) entries = inr kept ->
  forallb renderable kept = true ->
  exists st1,
    let t1 := (t ++ log_request self dag_id dag_run_id task_id
                 :: map (fun e => Print (rendered_line task_id e)) kept)%list in
    process_task self dag_id dag_run_id task r st t = (t1, inr st1)
    /\ process_task self dag_id dag_run_id task r st1 t1
       = ((t1 ++ [log_request self dag_id dag_run_id task_id])%list, inr st1).
Proof.
  intros Hid Hs Hhid Hlog Hsrc Hf Hc Hst Hsorted Hk Hr.
  destruct (task_get_ok task task_id (JStr "running") Hid Hs Hhid eq_refl)
    as (Hok & Hfid & Hfs).
  destruct (kept_logs_again_nil self _ r body entries kept
              Hsrc Hf Hc Hst Hsorted Hk) as [Hkept Hnone].
  set (c' := new_cutoff (dict_get (task_log_cutoffs st) task_id) kept) in *.
  exists {| logged_tasks := logged_tasks st;
            task_log_cutoffs := dict_set (task_log_cutoffs st) task_id c' |}.
  cbv zeta. split.
  - rewrite (process_task_unfold _ _ _ _ _ _ _ Hok). cbv zeta.
    rewrite Hfid, Hfs, Hlog.
    change (in_list (JStr "running") (running_states ++ completed_states)%list)
      with true.
    change (in_list (JStr "running") completed_states) with false.
    cbv iota. rewrite (print_task_logs_ok _ _ _ _ _ _ _ _ Hkept Hr).
    reflexivity.
  - rewrite (process_task_unfold _ _ _ _ _ _ _ Hok). cbv zeta.
    rewrite Hfid, Hfs. cbn [logged_tasks task_log_cutoffs]. rewrite Hlog.
    change (in_list (JStr "running") (running_states ++ completed_states)%list)
      with true.
    change (in_list (JStr "running") completed_states) with false.
    cbv iota. rewrite (dict_get_set _ _ _ Hhid).
    rewrite (print_task_logs_ok _ _ _ _ _ _ _ _ Hnone eq_refl).
    cbn [map new_cutoff]. now rewrite (dict_set_twice _ _ _ Hhid).
Qed.

End Again.

(** ** More on the monitor *)

Section MonitorMore.
Context `{PyText}.

Lemma sleep_refused_negative (interval : Z) :
  interval < 0 ->
  sleep_refused interval
  = Some (if interval <? -9223372036 then OverflowError else ValueError).
Proof.
  intros Hneg. unfold sleep_refused.
  assert (H2 : (9223372036 <? interval) = false) by (apply Z.ltb_ge; lia).
  apply Z.ltb_lt in Hneg. rewrite H2, Hneg, orb_false_r.
  now destruct (interval <? -9223372036).
Qed.

(** X11.  A negative interval makes the first pass that does not see a
    terminal run state the last one: after the tasks are processed
    [time.sleep] refuses the length ([ValueError], or [OverflowError] for
    a length beyond the clock of the interpreter), the handler of the loop
    prints the monitoring diagnostic and the loop is left. *)
Theorem negative_interval_aborts (self : AirflowDagRunner) (dag_id : string)
    (dag_run_id : json) (interval : Z) (p : poll) (rest : list poll)
    (st : monitor_state) (t : list event) :
  interval < 0 ->
  healthy p = true ->
  terminal p = false ->
  exists t',
    monitor_loop self dag_id dag_run_id interval (p :: rest) st t
    = ((t' ++ [Print ("Ошибка мониторинга: "
                      ++ str_exn (if interval <? -9223372036
                                  then OverflowError else ValueError))])%list,
       Some Aborted).
Proof.
  intros Hneg Hp Hterm.
  assert (Hex : exists s, run_state_of p = inr s).
  { unfold healthy in Hp. destruct (run_state_of p); [discriminate|eauto]. }
  destruct Hex as [s Hs].
  destruct (healthy_tick self dag_id dag_run_id interval p st t s Hp Hs)
    as (t' & st' & Htick).
  unfold terminal in Hterm. rewrite Hs in Hterm. rewrite Hterm in Htick.
  rewrite (sleep_refused_negative interval Hneg) in Htick.
  exists t'. cbn [monitor_loop]. now rewrite Htick.
Qed.

Lemma process_task_logged (self : AirflowDagRunner) (dag_id : string)
    (dag_run_id task task_id task_state : json) (r : reply)
    (st : monitor_state) (t : list event) :
  py_get task "task_id" JNull = inr task_id ->
  py_get task "state" JNull = inr task_state ->
  hashable task_id = true ->
  in_list task_id (logged_tasks st) = true ->
  process_task self dag_id dag_run_id task r st t = (t, inr st).
Proof.
  intros Hid Hs Hhid Hlog. unfold process_task, io_bind, lift, io_ret.
  rewrite Hid, Hs, (in_set_hashable _ (logged_tasks st) Hhid), Hlog.
  reflexivity.
Qed.

(** X12.  A task seen in a terminal state is tailed then and never
    again: after the pass that adds it to [logged_tasks], processing a
    task instance with the same id changes nothing, asks for nothing and
    prints nothing, whatever state and log reply it comes with. *)
Theorem terminal_task_is_processed_once (self : AirflowDagRunner)
    (dag_id : string) (dag_run_id task task_id task_state : json) (r : reply)
    (st : monitor_state) (t : list event) :
  py_get task "task_id" JNull = inr task_id ->
  py_get task "state" JNull = inr task_state ->
  hashable task_id = true ->
  in_list task_id (logged_tasks st) = false ->
  in_list task_state completed_states = true ->
  exists t' st',
    process_task self dag_id dag_run_id task r st t = (t', inr st')
    /\ forall later later_state r2 t2,
         py_get later "task_id" JNull = inr task_id ->
         py_get later "state" JNull = inr later_state ->
         process_task self dag_id dag_run_id later r2 st' t2 = (t2, inr st').
Proof.
  intros Hid Hs Hhid Hlog Hc.
  assert (Hhs : hashable task_state = true)
    by (apply in_eligible_hashable, in_completed_eligible, Hc).
  destruct (task_get_ok task task_id task_state Hid Hs Hhid Hhs)
    as (Hok & Hfid & Hfs).
  rewrite (process_task_unfold _ _ _ _ _ _ _ Hok). cbv zeta.
  rewrite Hfid, Hfs, Hlog, (in_completed_eligible _ Hc), Hc.
  destruct (print_task_logs_never_raises self dag_id dag_run_id task_id
              (dict_get (task_log_cutoffs st) task_id) r t) as [v Hv].
  destruct (_print_task_logs _ _ _ _ _ _ _) as [t' res]. simpl in Hv.
  subst res. eexists. eexists. split; [reflexivity|].
  intros later later_state r2 t2 Hlid Hls.
  apply (process_task_logged _ _ _ _ _ _ _ _ _ Hlid Hls Hhid).
  cbn [logged_tasks]. unfold set_add. unfold in_list in *. rewrite Hlog.
  rewrite existsb_app. simpl. rewrite (py_eq_refl_hashable _ Hhid).
  apply orb_true_r.
Qed.




Lemma py_eq_hashable_trans (k k' ki : json) :
  hashable k = true -> hashable k' = true ->
  py_eq k ki = true -> py_eq k' ki = true -> py_eq k' k = true.
Proof.
  destruct k as [|x|m|a| |], k' as [|y|n|b| |], ki as [|z|o|c| |];
    simpl; try discriminate; intros _ _; try reflexivity;
    rewrite ?Z.eqb_eq, ?String.eqb_eq, ?Bool.eqb_true_iff; intros; subst;
    try reflexivity; try lia;
    repeat match goal with
           | b : bool |- _ => destruct b
           end; simpl in *; try reflexivity; try lia; try discriminate.
Qed.

Lemma dict_get_set_other (d : list (json * json)) (k k' v : json) :
  hashable k = true -> hashable k' = true -> py_eq k' k = false ->
  dict_get (dict_set d k v) k' = dict_get d k'.
Proof.
  intros Hk Hk' Hne. induction d as [|[ki vi] d IH]; simpl.
  - now rewrite Hne.
  - destruct (py_eq k ki) eqn:Hki; simpl.
    + destruct (py_eq k' ki) eqn:Hk'i; [|reflexivity].
      now rewrite (py_eq_hashable_trans _ _ _ Hk Hk' Hki Hk'i) in Hne.
    + now rewrite IH.
Qed.

(** X14.  Cutoffs are kept per task: processing a task instance leaves
    the cutoff stored under every other id (one that is not equal to the
    id of the task) as it was. *)
Theorem cutoffs_of_other_tasks_untouched (self : AirflowDagRunner)
    (dag_id : string) (dag_run_id task task_id task_state : json) (r : reply)
    (st st' : monitor_state) (t t' : list event) (other : json) :
  py_get task "task_id" JNull = inr task_id ->
  py_get task "state" JNull = inr task_state ->
  hashable task_id = true ->
  hashable task_state = true ->
  hashable other = true ->
  py_eq other task_id = false ->
  process_task self dag_id dag_run_id task r st t = (t', inr st') ->
  dict_get (task_log_cutoffs st') other = dict_get (task_log_cutoffs st) other.
Proof.
  intros Hid Hs Hhid Hhs Hho Hne.
  destruct (task_get_ok task task_id task_state Hid Hs Hhid Hhs)
    as (Hok & Hfid & Hfs).
  rewrite (process_task_unfold _ _ _ _ _ _ _ Hok). cbv zeta.
  rewrite Hfid, Hfs.
  destruct (in_list task_id (logged_tasks st)); [now intros [= _ <-]|].
  destruct (in_list task_state (running_states ++ completed_states)%list);
    [|now intros [= _ <-]].
  destruct (_print_task_logs _ _ _ _ _ _ _) as [t1 [e|v]]; [discriminate|].
  intros [= _ <-]. cbn [task_log_cutoffs].
  now apply dict_get_set_other.
Qed.

Lemma tick_completed_inv (self : AirflowDagRunner) (dag_id : string)
    (dag_run_id : json) (interval : Z) (p : poll) (st : monitor_state)
    (t t' : list event) :
  monitor_tick self dag_id dag_run_id interval p st t = (t', Break Completed) ->
  exists s t0,
    run_state_of p = inr s /\ in_list s completed_states = true
    /\ t' = (t0 ++ [Print ("DAG завершен со статусом: " ++ py_str s)])%list.
Proof.
  unfold monitor_tick. rewrite tick_body_unfold. cbv zeta.
  destruct (run_state_of p) as [e|s]; [discriminate|].
  destruct (task_list_of p) as [e|tl]; [discriminate|].
  destruct (for_tasks _ _ _ _ _ _ _ _) as [t1 [e|st1]]; [discriminate|].
  unfold in_set. destruct (hashable s); [|discriminate]. cbn [ret].
  fold (in_list s completed_states).
  destruct (in_list s completed_states) eqn:Hc.
  - intros [= <-]. now exists s, t1.
  - destruct (sleep_refused interval); discriminate.
Qed.

(** X15.  The loop is left by the completion message only on a terminal
    run state: if it completes, the reply that its last pass read held the
    state success or failed, and the last line printed is the completion
    message for that state. *)
Theorem completed_only_on_terminal_run_state (self : AirflowDagRunner)
    (dag_id : string) (dag_run_id : json) (interval : Z) (polls : list poll)
    (st : monitor_state) (t t' : list event) :
  monitor_loop self dag_id dag_run_id interval polls st t = (t', Some Completed) ->
  exists before p rest s t0,
    polls = (before ++ p :: rest)%list
    /\ run_state_of p = inr s
    /\ (s = JStr "success" \/ s = JStr "failed")
    /\ t' = (t0 ++ [Print ("DAG завершен со статусом: " ++ py_str s)])%list.
Proof.
  revert st t. induction polls as [|p rest IH]; intros st t; [discriminate|].
  cbn [monitor_loop].
  destruct (monitor_tick self dag_id dag_run_id interval p st t)
    as [t1 [st1|how]] eqn:Htick.
  - intros Hloop. destruct (IH _ _ Hloop) as (before & q & rest' & s & t0 & -> & Hq).
    now exists (p :: before), q, rest', s, t0.
  - intros [= <- ->].
    destruct (tick_completed_inv _ _ _ _ _ _ _ _ Htick) as (s & t0 & Hs & Hc & ->).
    exists [], p, rest, s, t0. repeat split; auto.
    now apply in_completed_str.
Qed.

Lemma sleep_refused_oversized (interval : Z) :
  9223372036 < interval -> sleep_refused interval = Some OverflowError.
Proof.
  intros Hbig. unfold sleep_refused. apply Z.ltb_lt in Hbig.
  now rewrite Hbig, orb_true_r.
Qed.

(** X17.  An interval beyond 9223372036 seconds, which the clock of the
    interpreter cannot hold, makes the first pass that does not see a
    terminal run state the last one: [time.sleep] raises [OverflowError]
    inside the [try], the handler prints the monitoring diagnostic and the
    loop is left. *)
Theorem oversized_interval_aborts (self : AirflowDagRunner) (dag_id : string)
    (dag_run_id : json) (interval : Z) (p : poll) (rest : list poll)
    (st : monitor_state) (t : list event) :
  9223372036 < interval ->
  healthy p = true ->
  terminal p = false ->
  exists t',
    monitor_loop self dag_id dag_run_id interval (p :: rest) st t
    = ((t' ++ [Print ("Ошибка мониторинга: " ++ str_exn OverflowError)])%list,
       Some Aborted).
Proof.
  intros Hbig Hp Hterm.
  assert (Hex : exists s, run_state_of p = inr s).
  { unfold healthy in Hp. destruct (run_state_of p); [discriminate|eauto]. }
  destruct Hex as [s Hs].
  destruct (healthy_tick self dag_id dag_run_id interval p st t s Hp Hs)
    as (t' & st' & Htick).
  unfold terminal in Hterm. rewrite Hs in Hterm. rewrite Hterm in Htick.
  rewrite (sleep_refused_oversized interval Hbig) in Htick.
  exists t'. cbn [monitor_loop]. now rewrite Htick.
Qed.

End MonitorMore.

(** ** The history of a task over the polls *)

Section TaskHistory.
Context `{PyText}.



















(** The task instances of a poll are processed as such a sequence. *)
Lemma for_tasks_process_all (self : AirflowDagRunner) (dag_id : string)
    (dag_run_id : json) (task_list : list json) (i : nat)
    (log_replies : nat -> reply) (st : monitor_state) (t : list event) :
  for_tasks self dag_id dag_run_id task_list i log_replies st t
  = process_all self dag_id dag_run_id (pass_steps task_list i log_replies) st t.
Proof.
  revert i st t. induction task_list as [|task rest IH]; intros i st t;
    [reflexivity|].
  cbn [for_tasks pass_steps process_all]. unfold io_bind.
  destruct (process_task _ _ _ _ _ _ _) as [t1 [e|st1]]; [reflexivity|].
  apply IH.
Qed.

(** A pass that goes on to the next hands over the state that the loop
    body leaves after the task instances of the poll. *)
Lemma monitor_tick_steps (self : AirflowDagRunner) (dag_id : string)
    (dag_run_id : json) (interval : Z) (p : poll) (st st' : monitor_state)
    (t t' : list event) :
  monitor_tick self dag_id dag_run_id interval p st t = (t', Next st') ->
  exists task_list t1,
    task_list_of p = inr task_list
    /\ process_all self dag_id dag_run_id (pass_steps task_list 0 (logs p)) st
         (t ++ [Get (status_url_of self dag_id dag_run_id) [];
                Get (tasks_url_of self dag_id dag_run_id) []])%list
       = (t1, inr st').
Proof.
  unfold monitor_tick. rewrite tick_body_unfold. cbv zeta.
  destruct (run_state_of p) as [e|s]; [discriminate|].
  destruct (task_list_of p) as [e|tl]; [discriminate|].
  rewrite for_tasks_process_all.
  destruct (process_all _ _ _ _ _ _) as [t1 [e|st1]] eqn:Hrun; [discriminate|].
  destruct (in_set s completed_states) as [e|[|]]; try discriminate.
  destruct (sleep_refused interval); [discriminate|].
  intros Heq. injection Heq as Ht Hst. subst. exists tl, t1.
  split; [reflexivity|exact Hrun].
Qed.


End TaskHistory.

(** ** Further sample runs *)

Section MoreSamples.
#[local] Existing Instance sample_text.

Example log_sources_from_the_command_line :
  list_of_str "" = [""] /\ list_of_str "task," = ["task"; ""]
  /\ rstrip_slash "http://localhost:8080//" = "http://localhost:8080".
Proof. repeat split; reflexivity. Qed.

Lemma list_of_str_of_join_witness :
  (["root"; "task"; ""] <> []
   /\ forallb (fun piece => negb (has_comma piece)) ["root"; "task"; ""] = true)
  /\ list_of_str (join_comma ["root"; "task"; ""]) = ["root"; "task"; ""].
Proof.
  split; [split; [discriminate|reflexivity]|].
  exact (list_of_str_of_join ["root"; "task"; ""] ltac:(discriminate) eq_refl).
Defined.

Lemma trigger_failure_exits_with_code_1_witness :
  (token_of (auth refusing_trigger_server) = inr (JStr "token")
   /\ run_id_of (trigger refusing_trigger_server) = inl HTTPError)
  /\ main sample_args refusing_trigger_server
     = ([Post "http://localhost:8080/auth/token"
           (JObj [("username", JStr "admin"); ("password", JStr "secret")]);
         Post "http://localhost:8080/api/v2/dags/etl/dagRuns"
           (JObj [("logical_date", JNull); ("conf", JObj [])]);
         Print "Ошибка: Ошибка запуска DAG: HTTPError"],
        Exited 1).
Proof.
  split; [split; reflexivity|].
  exact (trigger_failure_exits_with_code_1 sample_args refusing_trigger_server
           (JStr "token") HTTPError eq_refl eq_refl).
Defined.

Lemma missing_token_and_run_id_are_none_witness :
  (auth keyless_server = Json (JObj [("detail", JStr "ok")])
   /\ lookup "access_token" [("detail", JStr "ok")] = None
   /\ trigger keyless_server = Json (JObj [("detail", JStr "ok")])
   /\ lookup "dag_run_id" [("detail", JStr "ok")] = None)
  /\ main sample_args keyless_server
     = ([Post "http://localhost:8080/auth/token"
           (JObj [("username", JStr "admin"); ("password", JStr "secret")]);
         Post "http://localhost:8080/api/v2/dags/etl/dagRuns"
           (JObj [("logical_date", JNull); ("conf", JObj [])]);
         Print "DAG Run ID: None"],
        Polling).
Proof.
  split; [repeat split; reflexivity|].
  exact (proj1 (missing_token_and_run_id_are_none sample_args keyless_server
                  [("detail", JStr "ok")] [("detail", JStr "ok")]
                  eq_refl eq_refl eq_refl eq_refl)).
Defined.

Lemma unrenderable_entry_cuts_output_witness :
  (kept_logs sample_runner JNull (logs_reply [entry_0; entry_no_level; entry_5])
   = inr [entry_0; entry_no_level; entry_5]
   /\ forallb renderable [entry_0; entry_no_level; entry_5] = false)
  /\ exists e,
       _print_task_logs sample_runner "etl" (JStr "r1") (JStr "t1") JNull
         (logs_reply [entry_0; entry_no_level; entry_5]) []
       = ([log_request sample_runner "etl" (JStr "r1") (JStr "t1");
           Print "2024-01-01T00:00:00 - t1: [INFO] started";
           log_diagnostic (JStr "t1") e],
          inr JNull).
Proof.
  split; [split; reflexivity|].
  exact (unrenderable_entry_cuts_output sample_runner "etl" (JStr "r1")
           (JStr "t1") JNull (logs_reply [entry_0; entry_no_level; entry_5]) []
           [entry_0; entry_no_level; entry_5] eq_refl eq_refl).
Defined.

Lemma missing_content_is_a_failure_witness :
  (fetch_json reply_without_content = inr (JObj [("detail", JStr "Not Found")])
   /\ lookup "content" [("detail", JStr "Not Found")] = None)
  /\ _print_task_logs sample_runner "etl" (JStr "r1") (JStr "t1")
       (JStr "2024-01-01T00:00:00") reply_without_content []
     = ([log_request sample_runner "etl" (JStr "r1") (JStr "t1");
         Print "Не удалось получить логи для задачи t1: AttributeError"],
        inr JNull).
Proof.
  split; [split; reflexivity|].
  exact (missing_content_is_a_failure sample_runner "etl" (JStr "r1")
           (JStr "t1") (JStr "2024-01-01T00:00:00") reply_without_content []
           [("detail", JStr "Not Found")] eq_refl eq_refl).
Defined.

Lemma tailing_again_prints_nothing_witness :
  (log_sources sample_runner <> []
   /\ fetch_json (logs_reply [entry_0; entry_5])
      = inr (JObj [("content", JList [entry_0; entry_5])])
   /\ py_get (JObj [("content", JList [entry_0; entry_5])]) "content"
        (JStr "Логи отсутствуют") = inr (JList [entry_0; entry_5])
   /\ forallb stamped [entry_0; entry_5] = true
   /\ StronglySorted timestamp_le [entry_0; entry_5]
   /\ filter_logs (log_sources sample_runner) JNull [entry_0; entry_5]
      = inr [entry_0; entry_5])
  /\ _print_task_logs sample_runner "etl" (JStr "r1") (JStr "t1")
       (JStr "2024-01-01T00:00:05") (logs_reply [entry_0; entry_5]) []
     = ([log_request sample_runner "etl" (JStr "r1") (JStr "t1")],
        inr (JStr "2024-01-01T00:00:05")).
Proof.
  assert (Hsorted : StronglySorted timestamp_le [entry_0; entry_5]).
  { repeat constructor. }
  split; [repeat split; (reflexivity || discriminate || exact Hsorted)|].
  exact (tailing_again_prints_nothing sample_runner "etl" (JStr "r1")
           (JStr "t1") JNull (logs_reply [entry_0; entry_5]) []
           (JObj [("content", JList [entry_0; entry_5])])
           [entry_0; entry_5] [entry_0; entry_5]
           ltac:(discriminate) eq_refl eq_refl eq_refl Hsorted eq_refl).
Defined.

Lemma negative_interval_aborts_witness :
  (-1 < 0 /\ healthy poll_running_0 = true /\ terminal poll_running_0 = false)
  /\ exists t',
       monitor_loop sample_runner "etl" (JStr "r1") (-1)
         [poll_running_0; poll_success_0_5] empty_state []
       = ((t' ++ [Print "Ошибка мониторинга: ValueError"])%list, Some Aborted).
Proof.
  split; [repeat split; (reflexivity || lia)|].
  exact (negative_interval_aborts sample_runner "etl" (JStr "r1") (-1)
           poll_running_0 [poll_success_0_5] empty_state []
           ltac:(lia) eq_refl eq_refl).
Defined.

Lemma terminal_task_is_processed_once_witness :
  (py_get (task_instance "t1" "success") "task_id" JNull = inr (JStr "t1")
   /\ py_get (task_instance "t1" "success") "state" JNull = inr (JStr "success")
   /\ hashable (JStr "t1") = true
   /\ in_list (JStr "t1") (logged_tasks empty_state) = false
   /\ in_list (JStr "success") completed_states = true)
  /\ exists t' st',
       process_task sample_runner "etl" (JStr "r1")
         (task_instance "t1" "success") (logs_reply [entry_0]) empty_state []
       = (t', inr st')
       /\ process_task sample_runner "etl" (JStr "r1")
            (task_instance "t1" "running") (logs_reply [entry_0; entry_5]) st' t'
          = (t', inr st').
Proof.
  split; [repeat split; reflexivity|].
  destruct (terminal_task_is_processed_once sample_runner "etl" (JStr "r1")
              (task_instance "t1" "success") (JStr "t1") (JStr "success")
              (logs_reply [entry_0]) empty_state []
              eq_refl eq_refl eq_refl eq_refl eq_refl)
    as (t' & st' & Hfirst & Hlater).
  exists t', st'. split; [exact Hfirst|].
  exact (Hlater (task_instance "t1" "running") (JStr "running")
           (logs_reply [entry_0; entry_5]) t' eq_refl eq_refl).
Defined.


Lemma cutoffs_of_other_tasks_untouched_witness :
  let st := {| logged_tasks := [];
               task_log_cutoffs := [(JStr "t2", JStr "2024-01-01T00:00:05")] |} in
  let st' := {| logged_tasks := [];
                task_log_cutoffs := [(JStr "t2", JStr "2024-01-01T00:00:05");
                                     (JStr "t1", JStr "2024-01-01T00:00:00")] |} in
  let t' := [log_request sample_runner "etl" (JStr "r1") (JStr "t1");
             Print "2024-01-01T00:00:00 - t1: [INFO] started"] in
  (py_get (task_instance "t1" "running") "task_id" JNull = inr (JStr "t1")
   /\ py_get (task_instance "t1" "running") "state" JNull = inr (JStr "running")
   /\ hashable (JStr "t1") = true
   /\ hashable (JStr "running") = true
   /\ hashable (JStr "t2") = true
   /\ py_eq (JStr "t2") (JStr "t1") = false
   /\ process_task sample_runner "etl" (JStr "r1")
        (task_instance "t1" "running") (logs_reply [entry_0]) st []
      = (t', inr st'))
  /\ dict_get (task_log_cutoffs st') (JStr "t2")
     = dict_get (task_log_cutoffs st) (JStr "t2").
Proof.
  intros st st' t'. split; [repeat split; reflexivity|].
  exact (cutoffs_of_other_tasks_untouched sample_runner "etl" (JStr "r1")
           (task_instance "t1" "running") (JStr "t1") (JStr "running")
           (logs_reply [entry_0]) st st' [] t' (JStr "t2")
           eq_refl eq_refl eq_refl eq_refl eq_refl eq_refl eq_refl).
Defined.

Lemma completed_only_on_terminal_run_state_witness :
  let polls := [poll_running_0; poll_success_0_5; poll_running_0] in
  let run := monitor_loop sample_runner "etl" (JStr "r1") 5 polls
               empty_state [] in
  run = (fst run, Some Completed)
  /\ exists before p rest s t0,
       polls = (before ++ p :: rest)%list
       /\ run_state_of p = inr s
       /\ (s = JStr "success" \/ s = JStr "failed")
       /\ fst run
          = (t0 ++ [Print ("DAG завершен со статусом: " ++ py_str s)])%list.
Proof.
  intros polls run. split; [reflexivity|].
  exact (completed_only_on_terminal_run_state sample_runner "etl" (JStr "r1")
           5 polls empty_state [] (fst run) eq_refl).
Defined.

Lemma repolling_an_unchanged_log_prints_nothing_witness :
  let task := task_instance "t1" "running" in
  let r := logs_reply [entry_0; entry_5] in
  (py_get task "task_id" JNull = inr (JStr "t1")
   /\ py_get task "state" JNull = inr (JStr "running")
   /\ hashable (JStr "t1") = true
   /\ in_list (JStr "t1") (logged_tasks empty_state) = false
   /\ log_sources sample_runner <> []
   /\ fetch_json r = inr (JObj [("content", JList [entry_0; entry_5])])
   /\ py_get (JObj [("content", JList [entry_0; entry_5])]) "content"
        (JStr "Логи отсутствуют") = inr (JList [entry_0; entry_5])
   /\ forallb stamped [entry_0; entry_5] = true
   /\ StronglySorted timestamp_le [entry_0; entry_5]
   /\ filter_logs (log_sources sample_runner)
        (dict_get (task_log_cutoffs empty_state) (JStr "t1")) [entry_0; entry_5]
      = inr [entry_0; entry_5]
   /\ forallb renderable [entry_0; entry_5] = true)
  /\ exists st1,
       let t1 := [log_request sample_runner "etl" (JStr "r1") (JStr "t1");
                  Print "2024-01-01T00:00:00 - t1: [INFO] started";
                  Print "2024-01-01T00:00:05 - t1: [INFO] finished"] in
       process_task sample_runner "etl" (JStr "r1") task r empty_state []
       = (t1, inr st1)
       /\ process_task sample_runner "etl" (JStr "r1") task r st1 t1
          = ((t1 ++ [log_request sample_runner "etl" (JStr "r1") (JStr "t1")])%list,
             inr st1).
Proof.
  intros task r.
  assert (Hsorted : StronglySorted timestamp_le [entry_0; entry_5]).
  { repeat constructor. }
  split; [repeat split; (reflexivity || discriminate || exact Hsorted)|].
  exact (repolling_an_unchanged_log_prints_nothing sample_runner "etl"
           (JStr "r1") task (JStr "t1") r empty_state []
           (JObj [("content", JList [entry_0; entry_5])])
           [entry_0; entry_5] [entry_0; entry_5]
           eq_refl eq_refl eq_refl eq_refl ltac:(discriminate) eq_refl eq_refl
           eq_refl Hsorted eq_refl eq_refl).
Defined.

Lemma oversized_interval_aborts_witness :
  (9223372036 < 10000000000
   /\ healthy poll_running_0 = true /\ terminal poll_running_0 = false)
  /\ exists t',
       monitor_loop sample_runner "etl" (JStr "r1") 10000000000
         [poll_running_0; poll_success_0_5] empty_state []
       = ((t' ++ [Print "Ошибка мониторинга: OverflowError"])%list,
          Some Aborted).
Proof.
  split; [repeat split; (reflexivity || lia)|].
  exact (oversized_interval_aborts sample_runner "etl" (JStr "r1") 10000000000
           poll_running_0 [poll_success_0_5] empty_state []
           ltac:(lia) eq_refl eq_refl).
Defined.

(** Two tasks polled with logs in timestamp order: the second execution
    for t1 prints the entry stamped 00:00:05 and the last one the entry
    stamped 00:00:07. *)
Example history_of_two_tasks :
  printed_lines
    (fst (process_all sample_runner "etl" (JStr "r1")
            (steps_before
               ++ (task_instance "t1" "running", logs_reply [entry_0; entry_5])
               :: steps_between
               ++ [(task_instance "t1" "success",
                    logs_reply [entry_0; entry_5; entry_boom])])%list
            empty_state []))
  = ["2024-01-01T00:00:00 - t1: [INFO] started";
     "2024-01-01T00:00:05 - t1: [INFO] finished";
     "2024-01-01T00:00:00 - t2: [INFO] started";
     "2024-01-01T00:00:07 - t1: [ERROR] boom: oops"].
Proof. reflexivity. Qed.


End MoreSamples.
